(** * NEXUS v5: the deviation-triggered recalibration core

    A shallow embedding of the sensor stream engine ([sensor_engine.py]),
    the adaptive recalibration engine ([recalibration_engine.py]), the
    Gemini client wrapper ([gemini_client.py]) and the constants of
    [config.py], followed by the properties the specification states
    about them.

    Python [float]s and NumPy [float64] scalars are IEEE 754 binary64
    numbers; they are embedded as Rocq's primitive [float]s, so every
    arithmetic operation and comparison below rounds exactly as the
    program's does.  Exceptions are explicit: a computation that may
    raise returns a [pyresult]. *)

From Stdlib Require Import Floats ZArith Lia Ascii String.
From stdpp Require Import base list strings gmap pretty.

Set Warnings "-inexact-float,-register-all".

(** ** The Python runtime the program relies on *)

Module Py.

(** An instance of a subclass of [Exception]: its class name and the
    text [str(e)] gives. *)
Record exn : Type := Exn { exn_class : string; exn_msg : string }.

Inductive pyresult (A : Type) : Type :=
  | Ok (a : A)
  | Raise (e : exn).
Arguments Ok {A} a.
Arguments Raise {A} e.

Definition bind {A B} (c : pyresult A) (k : A -> pyresult B) : pyresult B :=
  match c with
  | Ok a => k a
  | Raise e => Raise e
  end.

(** [try: c  except Exception: h] *)
Definition try_except {A} (c : pyresult A) (h : exn -> pyresult A) : pyresult A :=
  match c with
  | Ok a => Ok a
  | Raise e => h e
  end.

(** The values [json.loads] builds, which are also the values a patch
    may carry in its enrichment fields. *)
Inductive pyval : Type :=
  | PNone
  | PBool (b : bool)
  | PInt (z : Z)
  | PFloat (f : float)
  | PStr (s : string)
  | PList (l : list pyval)
  | PDict (d : gmap string pyval).

(** [obj.get(key, default)]: a method of [dict] only. *)
Definition py_get (obj : pyval) (key : string) (default : pyval) : pyresult pyval :=
  match obj with
  | PDict d => Ok (match d !! key with Some v => v | None => default end)
  | _ => Raise (Exn "AttributeError" "object has no attribute 'get'")
  end.

(** *** Floats *)

(** An integer as a signed-magnitude value with exponent 0; a zero
    keeps the sign [s]. *)
Definition Z2SF (s : bool) (n : Z) : spec_float :=
  match n with
  | Z0 => S754_zero s
  | Zpos p => S754_finite s p 0
  | Zneg p => S754_finite (negb s) p 0
  end.

(** [float(n)] for an [int]: the nearest binary64 value. *)
Definition float_of_Z (n : Z) : float :=
  SF2Prim (binary_normalize prec emax n 0 false).

(** The integer nearest to [num * 2^e], ties to even ([0 <= num]). *)
Definition rne_scaled (num e : Z) : Z :=
  if (0 <=? e)%Z then num * 2 ^ e
  else
    let d := (2 ^ (- e))%Z in
    let q := (num / d)%Z in
    let r := (num mod d)%Z in
    match (2 * r ?= d)%Z with
    | Lt => q
    | Gt => q + 1
    | Eq => if Z.even q then q else q + 1
    end.

(** [round(x, ndigits)] on a Python [float] with [0 <= ndigits]:
    CPython converts [x] to the correctly rounded decimal with
    [ndigits] fractional digits (round-half-even on the exact binary
    value) and converts that decimal back to the nearest float;
    infinities and NaN round to themselves. *)
Definition py_round (x : float) (ndigits : nat) : float :=
  match Prim2SF x with
  | S754_finite s m e =>
      let p := (10 ^ Z.of_nat ndigits)%Z in
      SF2Prim (SFdiv prec emax (Z2SF s (rne_scaled (Zpos m * p) e)) (Z2SF false p))
  | _ => x
  end.

(** [format(x, ".1f")], as the f-strings [{x:.1f}] use it. *)
Definition format_1f (x : float) : string :=
  match Prim2SF x with
  | S754_nan => "nan"
  | S754_infinity s => if s then "-inf" else "inf"
  | S754_zero s => if s then "-0.0" else "0.0"
  | S754_finite s m e =>
      let n := rne_scaled (Zpos m * 10) e in
      (if s then "-" else "") +:+ pretty (n / 10)%Z +:+ "." +:+ pretty (n mod 10)%Z
  end.

(** *** Sequences *)

(** [l[start:]] with Python's clamping of the start index. *)
Definition slice_from {A} (l : list A) (start : Z) : list A :=
  let n := Z.of_nat (length l) in
  let lo := if (start <? 0)%Z then Z.max (n + start) 0 else Z.min start n in
  drop (Z.to_nat lo) l.

(** [enumerate(l)], counting from [k]. *)
Fixpoint enumerate_from {A} (k : Z) (l : list A) : list (Z * A) :=
  match l with
  | [] => []
  | x :: l' => (k, x) :: enumerate_from (k + 1) l'
  end.

(** [range(lo, hi)] *)
Definition range (lo hi : Z) : list Z := seqZ lo (hi - lo).

(** *** Strings (a [str] as the bytes of its UTF-8 encoding) *)

Definition is_space (c : ascii) : bool :=
  let n := nat_of_ascii c in
  ((9 <=? n) && (n <=? 13) || (28 <=? n) && (n <=? 32))%nat.

Fixpoint lstrip_by (f : ascii -> bool) (s : string) : string :=
  match s with
  | EmptyString => EmptyString
  | String c s' => if f c then lstrip_by f s' else s
  end.

Definition rstrip_by (f : ascii -> bool) (s : string) : string :=
  String.rev (lstrip_by f (String.rev s)).

(** The encodings of the characters [str.strip] removes that lie past
    ASCII: U+0085, U+00A0, U+1680, U+2000 to U+200A, U+2028, U+2029,
    U+202F, U+205F and U+3000. *)
Definition wide_spaces : list string :=
  [ String "194" (String "133" "");
    String "194" (String "160" "");
    String "225" (String "154" (String "128" "")) ] ++
  map (fun k => String "226" (String "128" (String (ascii_of_nat (128 + k)) "")))
    (seq 0 11) ++
  [ String "226" (String "128" (String "168" ""));
    String "226" (String "128" (String "169" ""));
    String "226" (String "128" (String "175" ""));
    String "226" (String "129" (String "159" ""));
    String "227" (String "128" (String "128" "")) ].

(** The number of bytes of the whitespace character [s] starts with
    ([0] when it starts with none); [wide] lists the encodings longer
    than a byte. *)
Definition space_width (wide : list string) (s : string) : nat :=
  match s with
  | EmptyString => 0
  | String c _ =>
      if is_space c then 1
      else match find (fun w => String.prefix w s) wide with
           | Some w => String.length w
           | None => 0
           end
  end.

(** Dropping the leading whitespace characters; [skip] counts the bytes
    of the current one still to drop. *)
Fixpoint lstrip_spaces (wide : list string) (skip : nat) (s : string) : string :=
  match s with
  | EmptyString => EmptyString
  | String c s' =>
      match skip with
      | S k => lstrip_spaces wide k s'
      | O =>
          match space_width wide s with
          | O => s
          | S k => lstrip_spaces wide k s'
          end
      end
  end.

(** [s.strip()]: the trailing characters are dropped from the reversed
    bytes. *)
Definition strip (s : string) : string :=
  String.rev
    (lstrip_spaces (map String.rev wide_spaces) 0
       (String.rev (lstrip_spaces wide_spaces 0 s))).

(** [needle in s] *)
Fixpoint contains (needle s : string) : bool :=
  String.prefix needle s ||
  match s with
  | EmptyString => false
  | String _ s' => contains needle s'
  end.

End Py.

(** ** The parts of NumPy the sensor engine calls *)

Module Np.

(** [numpy.rint]: the nearest integral float, ties to even, with the
    sign of the argument (also when the result is a zero). *)
Definition rint (x : float) : float :=
  match Prim2SF x with
  | S754_finite s m e =>
      if (0 <=? e)%Z then x
      else
        let n := Py.rne_scaled (Zpos m) e in
        SF2Prim (binary_normalize prec emax (if s then (- n)%Z else n) 0 s)
  | _ => x
  end.

(** [round(x, decimals)] on a [numpy.float64] scalar with
    [0 < decimals]: the scalar's [__round__] is NumPy's [around], which
    scales by the power of ten, applies [rint] and scales back, all in
    binary64 arithmetic. *)
Definition round (x : float) (decimals : nat) : float :=
  let f := Py.float_of_Z (10 ^ Z.of_nat decimals) in
  (rint (x * f) / f)%float.

(** [numpy.mean] of a one-dimensional sequence: the float64 sum,
    accumulated from 0 in index order (the order NumPy's pairwise
    summation uses below 8 elements), divided by the element count. *)
Definition mean (l : list float) : float :=
  (fold_left PrimFloat.add l 0 / Py.float_of_Z (Z.of_nat (length l)))%float.

(** [numpy.random]: a generator is built from an optional seed (NumPy
    rejects some seeds) and each draw advances it. *)
Record RandomSource : Type := {
  Generator : Type;
  default_rng : option Z -> Py.pyresult Generator;
  normal : Generator -> float -> float -> float * Generator
}.

End Np.

(** ** [config.py] *)

Module Config.

Definition DEVIATION_CRITICAL : float := 20.0.
Definition DEVIATION_MODERATE : float := 10.0.
Definition DEVIATION_MINOR : float := 5.0.

Definition IS_CODES : gmap string string :=
  <["foundation" := "IS 1080, IS 6403"]>
  (<["seismic" := "IS 1893 (Part 1)"]>
  (<["concrete" := "IS 456:2000"]>
  (<["loading" := "IS 875 (Parts 1-5)"]> ∅))).

Definition SENSOR_TOTAL_READINGS : Z := 20.
Definition SENSOR_DEVIATION_START : Z := 12.

End Config.

(** ** [gemini_client.py] *)

Module GeminiClient.
Import Py.

(** What an f-string prompt of the recalibration engine interpolates;
    the surrounding template is constant text. *)
Record prompt : Type := {
  prompt_deviation : float;
  prompt_severity : string;
  prompt_context : string;
  prompt_variant : option pyval;
  prompt_action : string
}.

(** The text-generation service as the client sees it:
    [genai.Client(api_key=...)] and, for the request numbered [attempt]
    of a call, [generate_content(...).text]. *)
Record Service : Type := {
  new_client : pyresult unit;
  generate_content : prompt -> nat -> pyresult string
}.

(** [time.sleep]: the module's only [import time] stands inside the body
    of [call_gemini_json] (after its last statement), so the module
    global [time] that [call_gemini] looks up is never bound. *)
Definition time_sleep (seconds : Z) : pyresult unit :=
  Raise (Exn "NameError" "name 'time' is not defined").

(** The body of [for attempt in range(3)] of [call_gemini] (the second
    definition of that name, which is the one the module keeps).  A loop
    that ends without returning makes the function return [None]. *)
Fixpoint call_gemini_loop (svc : Service) (p : prompt) (attempts : list nat)
  : pyresult (option string) :=
  match attempts with
  | [] => Ok None
  | attempt :: rest =>
      match generate_content svc p attempt with
      | Ok text => Ok (Some (strip text))
      | Raise e =>
          if contains "429" (exn_msg e) && (attempt <? 2)%nat
          then bind (time_sleep 30) (fun _ => call_gemini_loop svc p rest)
          else Raise e
      end
  end.

(** [call_gemini(prompt, json_mode, fast)]; [json_mode] only prepends an
    instruction to the prompt text and [fast] is unused. *)
Definition call_gemini (svc : Service) (p : prompt) (json_mode fast : bool)
  : pyresult (option string) :=
  bind (new_client svc) (fun _ => call_gemini_loop svc p (seq 0 3)).

(** [re.sub(r"```(?:json)?", "", raw)]: every fence, with the word
    [json] when it follows, is deleted; [skip] counts the characters of
    the current match still to drop. *)
Fixpoint sub_fences (skip : nat) (raw : string) : string :=
  match raw with
  | EmptyString => EmptyString
  | String c rest =>
      match skip with
      | S k => sub_fences k rest
      | O =>
          if String.prefix "```json" raw then sub_fences 6 rest
          else if String.prefix "```" raw then sub_fences 2 rest
          else String c (sub_fences 0 rest)
      end
  end.

Definition is_backtick (c : ascii) : bool := Ascii.eqb c "`".

Section WithJson.

(** [json.loads]: the parsed value, or the [JSONDecodeError] raised. *)
Variable json_loads : string -> pyresult pyval.

(** [call_gemini_json(prompt, fast)] *)
Definition call_gemini_json (svc : Service) (p : prompt) (fast : bool) : pyresult pyval :=
  bind (call_gemini svc p true fast) (fun raw =>
  match raw with
  | None => Raise (Exn "TypeError" "expected string or bytes-like object")
  | Some raw =>
      let raw := strip (rstrip_by is_backtick (strip (sub_fences 0 raw))) in
      try_except (json_loads raw) (fun e =>
        if String.eqb (exn_class e) "JSONDecodeError"
        then Raise (Exn "ValueError"
                      ("Gemini returned invalid JSON: " +:+ exn_msg e +:+
                       String "010" ("Raw output:" +:+ String "010" raw)))
        else Raise e)
  end).

End WithJson.

End GeminiClient.

(** ** [sensor_engine.py] *)

Module SensorEngine.
Import Py.

Record SensorReading : Type := {
  index : Z;
  sbc_kNm2 : float;
  is_anomaly : bool;
  timestamp : string
}.

Record SensorStreamResult : Type := {
  readings : list SensorReading;
  deviation_detected : bool;
  deviation_percent : float;
  alert_level : string;
  trigger_recal : bool
}.

(** The conditional expression that both entry points evaluate on the
    rounded deviation to pick the alert level. *)
Definition alert_level_of (deviation_percent : float) : string :=
  if (20 <? deviation_percent)%float then "CRITICAL"
  else if (10 <? deviation_percent)%float then "WARNING"
  else if (5 <? deviation_percent)%float then "WATCH"
  else "NONE".

Section Simulate.

Variable src : Np.RandomSource.

(** The variables the [for] loop of [simulate_stream] updates. *)
Record loop_state : Type := {
  ls_rng : Np.Generator src;
  ls_readings : list SensorReading;
  ls_detected : bool
}.

(** One iteration of [for i in range(1, total + 1)]. *)
Definition loop_body (design_sbc : float) (deviation_start : Z)
    (st : loop_state) (i : Z) : loop_state :=
  let is_anomaly := (deviation_start <=? i)%Z in
  let '(sbc, rng, detected) :=
    if is_anomaly then
      let '(x, rng) := Np.normal src (ls_rng st) (design_sbc * 0.78)%float 10%float in
      (x, rng, true)
    else
      let '(x, rng) := Np.normal src (ls_rng st) design_sbc 5%float in
      (x, rng, ls_detected st) in
  {| ls_rng := rng;
     ls_readings :=
       ls_readings st ++
       [{| index := i; sbc_kNm2 := py_round sbc 1; is_anomaly := is_anomaly;
           timestamp := "" |}];
     ls_detected := detected |}.

Definition simulate_stream (design_sbc : float) (deviation_start total : Z)
    (seed : option Z) : pyresult SensorStreamResult :=
  bind (Np.default_rng src seed) (fun rng =>
  let st :=
    fold_left (loop_body design_sbc deviation_start) (range 1 (total + 1))
      {| ls_rng := rng; ls_readings := []; ls_detected := false |} in
  let readings := ls_readings st in
  let deviation_detected := ls_detected st in
  let deviation_percent :=
    if deviation_detected then
      let recent_avg := Np.mean (map sbc_kNm2 (slice_from readings (-5))) in
      ((design_sbc - recent_avg) / design_sbc * 100)%float
    else 0%float in
  let deviation_percent := py_round deviation_percent 2 in
  Ok {| readings := readings;
        deviation_detected := deviation_detected;
        deviation_percent := deviation_percent;
        alert_level := alert_level_of deviation_percent;
        trigger_recal := (5.0 <? deviation_percent)%float |}).

End Simulate.

(** [recent_avg] of [ingest_real_readings]. *)
Definition recent_avg (raw_values : list float) : float :=
  Np.mean (slice_from raw_values (-5)).

Definition ingest_real_readings (raw_values : list float) (design_sbc : float)
  : SensorStreamResult :=
  let readings :=
    map (fun '(i, v) =>
           {| index := i + 1; sbc_kNm2 := v; is_anomaly := false; timestamp := "" |})
        (enumerate_from 0 raw_values) in
  if (length raw_values <? 3)%nat then
    {| readings := readings; deviation_detected := false; deviation_percent := 0.0;
       alert_level := "NONE"; trigger_recal := false |}
  else
    let deviation_percent :=
      Np.round ((design_sbc - recent_avg raw_values) / design_sbc * 100)%float 2 in
    {| readings := readings;
       deviation_detected := (0 <? deviation_percent)%float;
       deviation_percent := deviation_percent;
       alert_level := alert_level_of deviation_percent;
       trigger_recal := (5.0 <? deviation_percent)%float |}.

End SensorEngine.

(** ** [recalibration_engine.py] *)

Module RecalibrationEngine.
Import Py.

Record RecalibrationPatch : Type := {
  deviation_percent : float;
  severity : string;
  structural_action : string;
  add_depth_mm : Z;
  add_piles : Z;
  new_risk_band : string;
  cost_delta_cr : float;
  is_code_reference : string;
  gemini_rationale : pyval;
  site_instructions : pyval;
  requires_approval : bool
}.

(** The locals that the three-way branch of [generate_patch] binds. *)
Record base_action : Type := {
  ba_severity : string;
  ba_add_depth_mm : Z;
  ba_add_piles : Z;
  ba_new_risk_band : string;
  ba_cost_delta_pct : float;
  ba_action : string
}.

(** "Determine base action": the [if]/[elif]/[else] of [generate_patch]. *)
Definition determine_base_action (deviation_percent : float) : base_action :=
  if (Config.DEVIATION_CRITICAL <? deviation_percent)%float then
    {| ba_severity := "CRITICAL";
       ba_add_depth_mm := 600;
       ba_add_piles := 4;
       ba_new_risk_band := "LOW";
       ba_cost_delta_pct := 0.18;
       ba_action :=
         "Increase founding depth by " +:+ pretty 600%Z +:+ "mm. " +:+
         "Add " +:+ pretty 4%Z +:+ " bored cast-in-situ piles per column. " +:+
         "Perform additional plate load test per IS 1888." |}
  else if (Config.DEVIATION_MODERATE <? deviation_percent)%float then
    {| ba_severity := "MODERATE";
       ba_add_depth_mm := 350;
       ba_add_piles := 2;
       ba_new_risk_band := "MODERATE";
       ba_cost_delta_pct := 0.09;
       ba_action :=
         "Increase founding depth by " +:+ pretty 350%Z +:+ "mm. " +:+
         "Add " +:+ pretty 2%Z +:+ " piles for load redistribution. " +:+
         "Recheck SBC with dynamic cone penetration test." |}
  else
    {| ba_severity := "MINOR";
       ba_add_depth_mm := 150;
       ba_add_piles := 0;
       ba_new_risk_band := "LOW-MODERATE";
       ba_cost_delta_pct := 0.03;
       ba_action :=
         "Increase reinforcement grade from Fe415 to Fe500. " +:+
         "Add 150mm to footing depth as precaution." |}.

(** [d[key]] on a [dict] of strings. *)
Definition subscript (d : gmap string string) (key : string) : pyresult string :=
  match d !! key with
  | Some v => Ok v
  | None => Raise (Exn "KeyError" key)
  end.

(** The prompt of [_gemini_explanations]. *)
Definition explanation_prompt (deviation_percent : float) (action severity : string)
    (project_context : string) (current_variant : option pyval) : GeminiClient.prompt :=
  {| GeminiClient.prompt_deviation := deviation_percent;
     GeminiClient.prompt_severity := severity;
     GeminiClient.prompt_context := project_context;
     GeminiClient.prompt_variant := current_variant;
     GeminiClient.prompt_action := action |}.

(** The two strings of the [except] clause of [_gemini_explanations]. *)
Definition fallback_rationale (deviation_percent : float) : string :=
  "A " +:+ format_1f deviation_percent +:+
  "% SBC drop reduces the safety factor below acceptable IS code limits. " +:+
  "The proposed depth increase and pile addition restore the required bearing capacity per IS 6403. " +:+
  "Immediate implementation prevents potential differential settlement and structural distress.".

Definition fallback_site_instructions (action : string) : string :=
  "Stop all foundation work. Contact the structural engineer. " +:+
  "Implement '" +:+ action +:+ "' before resuming.".

Section WithServices.

Variable json_loads : string -> pyresult pyval.
Variable svc : GeminiClient.Service.

(** [_gemini_explanations]: the [try] body asks the service and reads the
    two keys; any [Exception] selects the deterministic strings. *)
Definition _gemini_explanations (deviation_percent : float) (action severity : string)
    (project_context : string) (current_variant : option pyval)
  : pyresult (pyval * pyval) :=
  try_except
    (let p :=
       explanation_prompt deviation_percent action severity project_context
         current_variant in
     bind (GeminiClient.call_gemini_json json_loads svc p true) (fun result =>
     bind (py_get result "rationale" (PStr "")) (fun rationale =>
     bind (py_get result "site_instructions" (PStr "")) (fun site_instr =>
     Ok (rationale, site_instr)))))
    (fun _ =>
       Ok (PStr (fallback_rationale deviation_percent),
           PStr (fallback_site_instructions action))).

Definition generate_patch (deviation_percent : float) (project_context : string)
    (current_variant : option pyval) (budget_cr : float)
  : pyresult RecalibrationPatch :=
  let ba := determine_base_action deviation_percent in
  let cost_delta := py_round (budget_cr * ba_cost_delta_pct ba)%float 2 in
  bind (_gemini_explanations deviation_percent (ba_action ba) (ba_severity ba)
          project_context current_variant) (fun '(rationale, site_instr) =>
  bind (subscript Config.IS_CODES "foundation") (fun foundation =>
  bind (subscript Config.IS_CODES "seismic") (fun seismic =>
  Ok {| deviation_percent := py_round deviation_percent 2;
        severity := ba_severity ba;
        structural_action := ba_action ba;
        add_depth_mm := ba_add_depth_mm ba;
        add_piles := ba_add_piles ba;
        new_risk_band := ba_new_risk_band ba;
        cost_delta_cr := cost_delta;
        is_code_reference := foundation +:+ "; " +:+ seismic;
        gemini_rationale := rationale;
        site_instructions := site_instr;
        requires_approval :=
          bool_decide (ba_severity ba ∈ ["CRITICAL"; "MODERATE"]) |}))).

End WithServices.

End RecalibrationEngine.

(** ** The specification's wording, for comparison with the code *)

Module Spec.
Import Py.

(** "the last [n] readings (or all readings if fewer than [n] exist)" *)
Definition last_n {A} (n : nat) (l : list A) : list A :=
  if (length l <? n)%nat then l else reverse (take n (reverse l)).

(** One row of the policy table of section 4.3, read against a patch;
    the cost delta is the budget times the row's fraction, rounded to 2
    decimals. *)
Definition tier_row (p : RecalibrationEngine.RecalibrationPatch) (budget : float)
    (sev : string) (depth piles : Z) (band : string) (fraction : float)
    (approval : bool) : Prop :=
  RecalibrationEngine.severity p = sev /\
  RecalibrationEngine.add_depth_mm p = depth /\
  RecalibrationEngine.add_piles p = piles /\
  RecalibrationEngine.new_risk_band p = band /\
  RecalibrationEngine.cost_delta_cr p = py_round (budget * fraction)%float 2 /\
  RecalibrationEngine.requires_approval p = approval.

(** The three conditions of the policy table. *)
Definition is_critical (d : float) : bool := (20 <? d)%float.
Definition is_moderate (d : float) : bool := ((10 <? d) && (d <=? 20))%float.
Definition is_minor (d : float) : bool := (d <=? 10)%float.

(** The policy table: each condition prescribes its row. *)
Definition tier_mapping (d budget : float)
    (p : RecalibrationEngine.RecalibrationPatch) : Prop :=
  (is_critical d = true -> tier_row p budget "CRITICAL" 600 4 "LOW" 0.18 true) /\
  (is_moderate d = true -> tier_row p budget "MODERATE" 350 2 "MODERATE" 0.09 true) /\
  (is_minor d = true -> tier_row p budget "MINOR" 150 0 "LOW-MODERATE" 0.03 false).

(** Exactly one of three conditions holds. *)
Definition exactly_one (a b c : bool) : Prop :=
  (a = true /\ b = false /\ c = false) \/
  (a = false /\ b = true /\ c = false) \/
  (a = false /\ b = false /\ c = true).

(** The inputs section 7 calls invalid for the simulated entry point. *)
Definition invalid_input (baseline : float) (deviation_start total : Z) : Prop :=
  (baseline <=? 0)%float = true \/ (total <= 0)%Z \/
  (deviation_start < 1)%Z \/ (total < deviation_start)%Z.

End Spec.

(** ** Concrete environments for the examples *)

Module Scripted.
Import Py.

(** A generator that replays a script of standard-normal variates:
    [normal(loc, scale)] is [loc + scale * z] for the next [z] of the
    script (0 once the script is used up).  Like NumPy's [default_rng]
    it refuses a negative seed. *)
Definition source (script : list float) : Np.RandomSource :=
  {| Np.Generator := list float;
     Np.default_rng := fun seed =>
       match seed with
       | Some s =>
           if (s <? 0)%Z then Raise (Exn "ValueError" "expected non-negative integer")
           else Ok script
       | None => Ok script
       end;
     Np.normal := fun g loc scale =>
       ((loc + scale * match g with z :: _ => z | [] => 0 end)%float, tail g) |}.

Definition script20 : list float :=
  [0.3; -1.1; 0.7; 0.2; -0.4; 1.3; -0.8; 0.1; 0.9; -0.2;
   0.5; -0.6; 1.0; -1.4; 0.4; 0.0; -0.3; 0.8; -0.9; 0.6]%float.

(** A service that cannot be reached. *)
Definition service_down : GeminiClient.Service :=
  {| GeminiClient.new_client := Ok tt;
     GeminiClient.generate_content := fun _ _ =>
       Raise (Exn "ConnectionError" "service unreachable") |}.

(** A service whose reply is an empty JSON object inside a code fence. *)
Definition service_empty_object : GeminiClient.Service :=
  {| GeminiClient.new_client := Ok tt;
     GeminiClient.generate_content := fun _ _ => Ok "```json {} ```" |}.

(** [json.loads] restricted to the one text the examples parse. *)
Definition json_loads_braces (s : string) : pyresult pyval :=
  if String.eqb s "{}" then Ok (PDict ∅)
  else Raise (Exn "JSONDecodeError" "Expecting value").

End Scripted.

(** ** More environments for the examples *)

Module ScriptedMore.
Import Py.

(** A service that is rate limited on the first request of a call and
    would answer the next one. *)
Definition service_rate_limited_once : GeminiClient.Service :=
  {| GeminiClient.new_client := Ok tt;
     GeminiClient.generate_content := fun _ attempt =>
       match attempt with
       | O => Raise (Exn "ClientError" "429 RESOURCE_EXHAUSTED")
       | S _ => Ok "{}"
       end |}.

End ScriptedMore.

(** ** More of the Python runtime *)

Module PyMore.
Import Py.

(** [a / b] on Python floats: a zero divisor raises. *)
Definition float_div (a b : float) : pyresult float :=
  if (b =? 0)%float then Raise (Exn "ZeroDivisionError" "float division by zero")
  else Ok (a / b)%float.

(** [bool(l)] of a list. *)
Definition truthy_list {A} (l : list A) : bool :=
  match l with [] => false | _ :: _ => true end.

(** [bool(s)] of a string. *)
Definition truthy_str (s : string) : bool :=
  match s with EmptyString => false | String _ _ => true end.

End PyMore.

(** ** [project.py] *)

Module Project.
Import Py PyMore.

Record ProjectInput : Type := {
  project_id : string;
  structure : string;
  soil_type : string;
  seismic_zone : string;
  load_kN : float;
  budget_cr : float;
  season : string;
  location : string;
  vertical : string;
  notes : option string
}.

(** [validate]: the violations are collected in a fixed order and
    reported together. *)
Definition validate (self : ProjectInput) : pyresult bool :=
  let errors := [] in
  let errors :=
    if (load_kN self <=? 0)%float then errors ++ ["load_kN must be positive"]
    else errors in
  let errors :=
    if (budget_cr self <=? 0)%float then errors ++ ["budget_cr must be positive"]
    else errors in
  let errors :=
    if negb (bool_decide (seismic_zone self ∈ ["II"; "III"; "IV"; "V"]))
    then errors ++ ["seismic_zone must be II/III/IV/V, got " +:+ seismic_zone self]
    else errors in
  if truthy_list errors
  then Raise (Exn "ValueError"
                ("ProjectInput validation failed: " +:+ String.concat "; " errors))
  else Ok true.

Section WithRepr.

(** [str(x)] of a float, as an f-string field without a format prints
    it. *)
Variable float_str : float -> string.

Definition to_prompt_context (self : ProjectInput) : string :=
  "Project: " +:+ project_id self +:+ " | Structure: " +:+ structure self +:+
  String "010" (
  "Soil: " +:+ soil_type self +:+ " | Seismic Zone: " +:+ seismic_zone self +:+
  String "010" (
  "Load: " +:+ float_str (load_kN self) +:+ " kN | Budget: â‚¹" +:+
  float_str (budget_cr self) +:+ " Cr" +:+
  String "010" (
  "Season: " +:+ season self +:+ " | Location: " +:+ location self +:+
  String "010" (
  "L&T Vertical: " +:+ vertical self +:+
  match notes self with
  | Some n => if truthy_str n then String "010" ("Engineer Notes: " +:+ n) else ""
  | None => ""
  end)))).

End WithRepr.

End Project.

(** ** [impact_model.py] *)

Module ImpactModel.
Import Py PyMore.

Record ImpactReport : Type := {
  rework_saving_cr : float;
  delay_saving_cr : float;
  design_time_saving_cr : float;
  total_saving_cr : float;
  roi_multiplier : float;
  payback_months : float
}.

Definition REWORK_FRACTION_OF_COST : float := 0.22.
Definition REWORK_REDUCTION_BY_NEXUS : float := 0.45.
Definition DELAY_FRACTION_OF_COST : float := 0.10.
Definition DELAY_REDUCTION_BY_NEXUS : float := 0.35.
Definition DESIGN_SAVING_FRACTION : float := 0.08.
Definition NEXUS_DEPLOY_COST_CR : float := 5.0.

Definition calculate (failure_prob budget_cr : float) : pyresult ImpactReport :=
  bind (float_div failure_prob 100) (fun ratio =>
  let rework_saving :=
    (budget_cr * REWORK_FRACTION_OF_COST * REWORK_REDUCTION_BY_NEXUS *
     (1 + ratio))%float in
  let delay_saving :=
    (budget_cr * DELAY_FRACTION_OF_COST * DELAY_REDUCTION_BY_NEXUS)%float in
  let design_saving := (budget_cr * DESIGN_SAVING_FRACTION * 0.60)%float in
  let total_saving := (rework_saving + delay_saving + design_saving)%float in
  bind (float_div total_saving NEXUS_DEPLOY_COST_CR) (fun roi =>
  let roi_multiplier := py_round roi 2 in
  bind (float_div NEXUS_DEPLOY_COST_CR total_saving) (fun payback =>
  let payback_months := py_round (payback * 12)%float 1 in
  Ok {| rework_saving_cr := py_round rework_saving 2;
        delay_saving_cr := py_round delay_saving 2;
        design_time_saving_cr := py_round design_saving 2;
        total_saving_cr := py_round total_saving 2;
        roi_multiplier := roi_multiplier;
        payback_months := payback_months |}))).

End ImpactModel.

(** ** Example projects *)

Module Examples.

(** The project of the pipeline's demo entry point. *)
Definition demo_project : Project.ProjectInput :=
  {| Project.project_id := "LNT-HYD-2026-001";
     Project.structure := "10-storey Residential Tower";
     Project.soil_type := "Black Cotton Soil";
     Project.seismic_zone := "III";
     Project.load_kN := 2500.0;
     Project.budget_cr := 12.5;
     Project.season := "Monsoon";
     Project.location := "Hyderabad, Telangana";
     Project.vertical := "Buildings & Factories";
     Project.notes := Some "Adjacent to water body; high water table expected." |}.

(** A project that breaks every rule of [validate]. *)
Definition invalid_project : Project.ProjectInput :=
  {| Project.project_id := "X";
     Project.structure := "Shed";
     Project.soil_type := "Sandy loam";
     Project.seismic_zone := "VI";
     Project.load_kN := -1.0;
     Project.budget_cr := 0.0;
     Project.season := "Summer";
     Project.location := "India";
     Project.vertical := "Buildings";
     Project.notes := None |}.

End Examples.

(** ** Python values: iteration, subscripts, ordering *)

Module PyData.
Import Py.

(** [c.lower()] and [s.lower()] on ASCII text. *)
Definition lower_char (c : ascii) : ascii :=
  let n := nat_of_ascii c in
  if ((65 <=? n) && (n <=? 90))%nat then ascii_of_nat (n + 32) else c.

Fixpoint lower (s : string) : string :=
  match s with
  | EmptyString => EmptyString
  | String c s' => String (lower_char c) (lower s')
  end.

(** The items a [for] loop (or [min]) draws from a value.  A [dict]
    yields its keys (here in the map's key order) and a [str] one item
    per byte of its text (one per character for ASCII text; the callers
    tell an empty text from another and nothing more). *)
Definition py_iter (v : pyval) : pyresult (list pyval) :=
  match v with
  | PList l => Ok l
  | PDict d => Ok (map (fun kv => PStr (fst kv)) (map_to_list d))
  | PStr s => Ok (map (fun c => PStr (String c EmptyString)) (list_ascii_of_string s))
  | _ => Raise (Exn "TypeError" "object is not iterable")
  end.

(** [set(v.keys())] *)
Definition key_set (v : pyval) : pyresult (gset string) :=
  match v with
  | PDict d => Ok (dom d)
  | _ => Raise (Exn "AttributeError" "object has no attribute 'keys'")
  end.

(** [v[key]] with a string key.  The text of the [KeyError] is the
    [repr] of the key: for the identifiers the code subscripts with, the
    key in single quotes. *)
Definition py_getitem (v : pyval) (key : string) : pyresult pyval :=
  match v with
  | PDict d =>
      match d !! key with
      | Some x => Ok x
      | None => Raise (Exn "KeyError" ("'" +:+ key +:+ "'"))
      end
  | _ => Raise (Exn "TypeError" "indices must be integers or object is not subscriptable")
  end.

(** The exact order between an [int] and a [float] (no rounding of the
    [int]); [None] when the float is a NaN. *)
Definition compare_Z_float (n : Z) (x : float) : option comparison :=
  match Prim2SF x with
  | S754_nan => None
  | S754_infinity s => Some (if s then Gt else Lt)
  | S754_zero _ => Some (n ?= 0)%Z
  | S754_finite s m e =>
      let v := if s then Zneg m else Zpos m in
      Some (if (0 <=? e)%Z then (n ?= v * 2 ^ e)%Z else (n * 2 ^ (- e) ?= v)%Z)
  end.

(** A Python number: [bool] and [int] as integers, or a [float]. *)
Definition as_number (v : pyval) : option (Z + float) :=
  match v with
  | PBool b => Some (inl (if b then 1%Z else 0%Z))
  | PInt z => Some (inl z)
  | PFloat f => Some (inr f)
  | _ => None
  end.

Definition number_lt (a b : Z + float) : bool :=
  match a, b with
  | inl x, inl y => (x <? y)%Z
  | inr x, inr y => (x <? y)%float
  | inl x, inr y => match compare_Z_float x y with Some Lt => true | _ => false end
  | inr x, inl y => match compare_Z_float y x with Some Gt => true | _ => false end
  end.

Section Ordering.

(** [a < b] on two lists, which compares their items in turn. *)
Variable list_lt : list pyval -> list pyval -> pyresult bool.

(** [a < b] *)
Definition py_lt (a b : pyval) : pyresult bool :=
  match as_number a, as_number b with
  | Some x, Some y => Ok (number_lt x y)
  | _, _ =>
      match a, b with
      | PStr s, PStr t => Ok (String.ltb s t)
      | PList l, PList k => list_lt l k
      | _, _ => Raise (Exn "TypeError" "'<' not supported between these instances")
      end
  end.

(** The loop of [min(items, key=key)] once a first item is held. *)
Fixpoint min_loop (key : pyval -> pyresult pyval) (best best_key : pyval)
    (items : list pyval) : pyresult pyval :=
  match items with
  | [] => Ok best
  | item :: rest =>
      bind (key item) (fun k =>
      bind (py_lt k best_key) (fun smaller =>
      if smaller then min_loop key item k rest
      else min_loop key best best_key rest))
  end.

(** [min(v, key=key)] *)
Definition py_min (v : pyval) (key : pyval -> pyresult pyval) : pyresult pyval :=
  bind (py_iter v) (fun items =>
  match items with
  | [] => Raise (Exn "ValueError" "min() arg is an empty sequence")
  | first :: rest => bind (key first) (fun k => min_loop key first k rest)
  end).

End Ordering.

Section Text.

(** [str(x)] of a float, and of a list or a dict. *)
Variable float_str : float -> string.
Variable container_str : pyval -> string.

(** [str(v)], as an f-string field without a format prints it. *)
Definition py_str (v : pyval) : string :=
  match v with
  | PNone => "None"
  | PBool b => if b then "True" else "False"
  | PInt z => pretty z
  | PFloat f => float_str f
  | PStr s => s
  | PList _ | PDict _ => container_str v
  end.

End Text.

End PyData.

(** ** [design_module.py] *)

Module DesignModule.
Import Py PyMore PyData Project.

(** The keys [_gemini_variants] requires of every variant. *)
Definition required : gset string :=
  list_to_set ["id"; "name"; "depth_m"; "piles"; "risk_score"; "cost_cr"].

(** The dict literal of seismic factors. *)
Definition seismic_factors : gmap string float :=
  <["II" := 1.0%float]> (<["III" := 1.1%float]> (<["IV" := 1.2%float]>
  (<["V" := 1.35%float]> ∅))).

Definition soil_factor (project : ProjectInput) : float :=
  if contains "black" (lower (soil_type project)) then 1.3%float
  else if contains "sand" (lower (soil_type project)) then 1.1%float
  else 1.0%float.

Definition seismic_factor (project : ProjectInput) : float :=
  match seismic_factors !! seismic_zone project with
  | Some f => f
  | None => 1.0%float
  end.

Definition base_depth (project : ProjectInput) : float :=
  (2.0 * soil_factor project * seismic_factor project)%float.

(** [_deterministic_variants] *)
Definition _deterministic_variants (project : ProjectInput) : pyresult pyval :=
  let base_depth := base_depth project in
  bind (RecalibrationEngine.subscript Config.IS_CODES "foundation") (fun foundation =>
  bind (RecalibrationEngine.subscript Config.IS_CODES "seismic") (fun seismic =>
  bind (RecalibrationEngine.subscript Config.IS_CODES "concrete") (fun concrete =>
  Ok (PList
    [ PDict (list_to_map
        [ ("id", PStr "V1"); ("name", PStr "Cost-Optimised Shallow");
          ("foundation_type", PStr "Raft");
          ("depth_m", PFloat (py_round base_depth 2)); ("piles", PInt 0);
          ("width_m", PFloat (py_round (base_depth * 1.5)%float 2));
          ("risk_score", PFloat 6.5);
          ("cost_cr", PFloat (py_round (budget_cr project * 0.82)%float 2));
          ("is_code_refs", PList [PStr foundation]);
          ("rationale",
           PStr "Lowest cost; acceptable for low seismic & stable soil.") ]);
      PDict (list_to_map
        [ ("id", PStr "V2"); ("name", PStr "Balanced — Recommended");
          ("foundation_type", PStr "Combined Raft + Piles");
          ("depth_m", PFloat (py_round (base_depth + 0.4)%float 2)); ("piles", PInt 4);
          ("width_m", PFloat (py_round (base_depth * 1.8)%float 2));
          ("risk_score", PFloat 3.8);
          ("cost_cr", PFloat (py_round (budget_cr project) 2));
          ("is_code_refs", PList [PStr foundation; PStr seismic]);
          ("rationale", PStr "Best cost-safety balance for Indian conditions.") ]);
      PDict (list_to_map
        [ ("id", PStr "V3"); ("name", PStr "Safety-Maximised Pile");
          ("foundation_type", PStr "Bored Cast-in-Situ Piles");
          ("depth_m", PFloat (py_round (base_depth + 0.8)%float 2)); ("piles", PInt 8);
          ("width_m", PFloat (py_round (base_depth * 2.0)%float 2));
          ("risk_score", PFloat 1.5);
          ("cost_cr", PFloat (py_round (budget_cr project * 1.28)%float 2));
          ("is_code_refs", PList [PStr foundation; PStr seismic; PStr concrete]);
          ("rationale",
           PStr "Maximum safety margin; recommended for Zone IV/V or poor soil.") ])
    ])))).

Section WithServices.

Variable json_loads : string -> pyresult pyval.
Variable svc : GeminiClient.Service.
Variable float_str : float -> string.
Variable container_str : pyval -> string.
Variable set_str : gset string -> string.
Variable list_lt : list pyval -> list pyval -> pyresult bool.

(** The prompt of [_gemini_variants], carried in the client's prompt
    record: the severity slot names the template, the action slot holds
    the two IS codes and the context slot the project brief. *)
Definition variants_prompt (project : ProjectInput) (foundation seismic : string)
  : GeminiClient.prompt :=
  {| GeminiClient.prompt_deviation := 0;
     GeminiClient.prompt_severity := "design-variants";
     GeminiClient.prompt_context := to_prompt_context float_str project;
     GeminiClient.prompt_variant := None;
     GeminiClient.prompt_action := foundation +:+ ", " +:+ seismic |}.

(** The validation loop of [_gemini_variants]. *)
Fixpoint check_variants (items : list pyval) : pyresult unit :=
  match items with
  | [] => Ok tt
  | v :: rest =>
      bind (key_set v) (fun keys =>
      let missing := required ∖ keys in
      if bool_decide (missing ≠ ∅) then
        bind (py_get v "id" PNone) (fun id =>
        Raise (Exn "ValueError"
                 ("Variant " +:+ py_str float_str container_str id +:+
                  " missing keys: " +:+ set_str missing)))
      else check_variants rest)
  end.

Definition _gemini_variants (project : ProjectInput) : pyresult pyval :=
  bind (RecalibrationEngine.subscript Config.IS_CODES "foundation") (fun foundation =>
  bind (RecalibrationEngine.subscript Config.IS_CODES "seismic") (fun seismic =>
  bind (GeminiClient.call_gemini_json json_loads svc
          (variants_prompt project foundation seismic) false) (fun variants =>
  bind (py_iter variants) (fun items =>
  bind (check_variants items) (fun _ =>
  Ok variants))))).

(** [generate_variants]; the message printed on the fallback path is
    console output. *)
Definition generate_variants (project : ProjectInput) : pyresult pyval :=
  try_except (_gemini_variants project) (fun e => _deterministic_variants project).

(** The prompt of [explain_recommendation]: the variant slot holds the
    variants. *)
Definition recommendation_prompt (variants : pyval) (project : ProjectInput)
  : GeminiClient.prompt :=
  {| GeminiClient.prompt_deviation := 0;
     GeminiClient.prompt_severity := "explain-recommendation";
     GeminiClient.prompt_context := to_prompt_context float_str project;
     GeminiClient.prompt_variant := Some variants;
     GeminiClient.prompt_action := "" |}.

(** [explain_recommendation]: the service's text, or a sentence about the
    variant of least risk score. *)
Definition explain_recommendation (variants : pyval) (project : ProjectInput)
  : pyresult (option string) :=
  try_except
    (GeminiClient.call_gemini svc (recommendation_prompt variants project) false true)
    (fun _ =>
       bind (py_min list_lt variants (fun v => py_getitem v "risk_score")) (fun rec =>
       bind (py_getitem rec "id") (fun id =>
       bind (py_getitem rec "name") (fun name =>
       bind (py_getitem rec "risk_score") (fun risk_score =>
       bind (py_getitem rec "cost_cr") (fun cost_cr =>
       let str := py_str float_str container_str in
       Ok (Some ("Recommended variant: " +:+ str id +:+ " — " +:+ str name +:+ ". " +:+
                 "Risk score: " +:+ str risk_score +:+ "/10. " +:+
                 "Cost: ₹" +:+ str cost_cr +:+ " Cr. " +:+
                 "Verify soil bearing capacity on-site before finalising.")))))))).

End WithServices.

End DesignModule.

(** ** Stand-ins for Python's printers and parser in the examples *)

Module Printers.
Import Py.

(** A stand-in for [str] of a float: the value with one decimal. *)
Definition float_str (x : float) : string := format_1f x.

(** A stand-in for [str] of a list or dict, and of a set. *)
Definition container_str (v : pyval) : string := "[...]".
Definition set_str (s : gset string) : string := "{...}".

(** A stand-in for [<] on lists that refuses every pair. *)
Definition list_lt (l k : list pyval) : pyresult bool :=
  Raise (Exn "TypeError" "lists are not compared in the examples").

(** [json.loads] restricted to two texts. *)
Definition json_loads_small (s : string) : pyresult pyval :=
  if String.eqb s "{}" then Ok (PDict ∅)
  else if String.eqb s "[]" then Ok (PList [])
  else Raise (Exn "JSONDecodeError" "Expecting value").

(** A service that answers every request with an empty JSON array. *)
Definition service_empty_array : GeminiClient.Service :=
  {| GeminiClient.new_client := Ok tt;
     GeminiClient.generate_content := fun _ _ => Ok "[]" |}.

End Printers.

(** ** [server.py] *)

Module Server.
Import Py PyMore PyData.

Record ProjectRequest : Type := {
  req_project_id : string;
  req_structure : string;
  req_soil_type : string;
  req_seismic_zone : string;
  req_load_kN : float;
  req_budget_cr : float;
  req_season : string;
  req_location : string;
  req_vertical : string;
  req_notes : option string
}.

Record SensorRequest : Type := {
  design_sbc : float;
  readings : option (list float)
}.

Definition _to_project (req : ProjectRequest) : Project.ProjectInput :=
  {| Project.project_id := req_project_id req;
     Project.structure := req_structure req;
     Project.soil_type := req_soil_type req;
     Project.seismic_zone := req_seismic_zone req;
     Project.load_kN := req_load_kN req;
     Project.budget_cr := req_budget_cr req;
     Project.season := req_season req;
     Project.location := req_location req;
     Project.vertical := req_vertical req;
     Project.notes := req_notes req |}.

(** [raise HTTPException(status, detail)]; [str] of the exception is the
    status, a colon and the detail. *)
Definition http_exception (status : Z) (detail : string) : exn :=
  Exn "HTTPException" (pretty status +:+ ": " +:+ detail).

(** The value of an optional string in a response. *)
Definition of_option_str (s : option string) : pyval :=
  match s with Some t => PStr t | None => PNone end.

(** The response dict of [sensor_stream]. *)
Definition stream_response (result : SensorEngine.SensorStreamResult) : pyval :=
  PDict (list_to_map
    [ ("deviation_detected", PBool (SensorEngine.deviation_detected result));
      ("deviation_percent", PFloat (SensorEngine.deviation_percent result));
      ("alert_level", PStr (SensorEngine.alert_level result));
      ("trigger_recal", PBool (SensorEngine.trigger_recal result));
      ("last_5_readings",
       PList (map (fun r => PFloat (SensorEngine.sbc_kNm2 r))
                (slice_from (SensorEngine.readings result) (-5)))) ]).

Section WithServices.

Variable src : Np.RandomSource.
Variable json_loads : string -> pyresult pyval.
Variable svc : GeminiClient.Service.
Variable float_str : float -> string.
Variable container_str : pyval -> string.
Variable set_str : gset string -> string.
Variable list_lt : list pyval -> list pyval -> pyresult bool.

(** [POST /design/variants] *)
Definition generate_variants (req : ProjectRequest) : pyresult pyval :=
  let p := _to_project req in
  bind (try_except (Project.validate p) (fun e =>
          if String.eqb (exn_class e) "ValueError"
          then Raise (http_exception 400 (exn_msg e))
          else Raise e)) (fun _ =>
  bind (DesignModule.generate_variants json_loads svc float_str container_str set_str p)
    (fun variants =>
  bind (DesignModule.explain_recommendation svc float_str container_str list_lt
          variants p) (fun recommendation =>
  Ok (PDict (list_to_map
        [ ("variants", variants);
          ("recommendation", of_option_str recommendation) ]))))).

(** [POST /sensor/stream]: real readings when the request holds some,
    a simulated stream with the default arguments otherwise. *)
Definition sensor_stream (req : SensorRequest) : pyresult pyval :=
  bind (match readings req with
        | Some (v :: rest) =>
            Ok (SensorEngine.ingest_real_readings (v :: rest) (design_sbc req))
        | _ =>
            SensorEngine.simulate_stream src (design_sbc req)
              Config.SENSOR_DEVIATION_START Config.SENSOR_TOTAL_READINGS None
        end) (fun result =>
  Ok (stream_response result)).

(** [POST /recalibrate] *)
Definition recalibrate (deviation_percent budget_cr : float) (project_id : string)
  : pyresult pyval :=
  bind (RecalibrationEngine.generate_patch json_loads svc deviation_percent "" None
          budget_cr) (fun patch =>
  Ok (PDict (list_to_map
        [ ("severity", PStr (RecalibrationEngine.severity patch));
          ("structural_action", PStr (RecalibrationEngine.structural_action patch));
          ("add_depth_mm", PInt (RecalibrationEngine.add_depth_mm patch));
          ("add_piles", PInt (RecalibrationEngine.add_piles patch));
          ("cost_delta_cr", PFloat (RecalibrationEngine.cost_delta_cr patch));
          ("new_risk_band", PStr (RecalibrationEngine.new_risk_band patch));
          ("rationale", RecalibrationEngine.gemini_rationale patch);
          ("site_instructions", RecalibrationEngine.site_instructions patch);
          ("requires_approval", PBool (RecalibrationEngine.requires_approval patch)) ]))).

(** [POST /impact] *)
Definition business_impact (failure_prob budget_cr : float) : pyresult pyval :=
  bind (ImpactModel.calculate failure_prob budget_cr) (fun report =>
  Ok (PDict (list_to_map
        [ ("rework_saving_cr", PFloat (ImpactModel.rework_saving_cr report));
          ("delay_saving_cr", PFloat (ImpactModel.delay_saving_cr report));
          ("design_saving_cr", PFloat (ImpactModel.design_time_saving_cr report));
          ("total_saving_cr", PFloat (ImpactModel.total_saving_cr report));
          ("roi_multiplier", PFloat (ImpactModel.roi_multiplier report));
          ("payback_months", PFloat (ImpactModel.payback_months report)) ]))).

End WithServices.

End Server.

(** ** Requests and a service for the endpoint examples *)

Module Requests.
Import Py.

(** The demo project as a request body. *)
Definition demo_request : Server.ProjectRequest :=
  {| Server.req_project_id := "LNT-HYD-2026-001";
     Server.req_structure := "10-storey Residential Tower";
     Server.req_soil_type := "Black Cotton Soil";
     Server.req_seismic_zone := "III";
     Server.req_load_kN := 2500.0;
     Server.req_budget_cr := 12.5;
     Server.req_season := "Monsoon";
     Server.req_location := "Hyderabad, Telangana";
     Server.req_vertical := "Buildings & Factories";
     Server.req_notes := None |}.

(** A request body with a seismic zone the code does not know. *)
Definition zone_six_request : Server.ProjectRequest :=
  {| Server.req_project_id := "X";
     Server.req_structure := "Shed";
     Server.req_soil_type := "Sandy loam";
     Server.req_seismic_zone := "VI";
     Server.req_load_kN := 100.0;
     Server.req_budget_cr := 1.0;
     Server.req_season := "Summer";
     Server.req_location := "India";
     Server.req_vertical := "Buildings";
     Server.req_notes := None |}.

(** A service that answers the variants request with an empty JSON array
    and cannot be reached for anything else. *)
Definition service_variants_only : GeminiClient.Service :=
  {| GeminiClient.new_client := Ok tt;
     GeminiClient.generate_content := fun p _ =>
       if String.eqb (GeminiClient.prompt_severity p) "design-variants"
       then Ok "[]"
       else Raise (Exn "ConnectionError" "service unreachable") |}.

End Requests.

(** * Properties *)

(** ** The order of binary64 values *)

Module FloatOrder.

Lemma SFcompare_antisym (x y : spec_float) :
  SFcompare y x = option_map CompOpp (SFcompare x y).
Proof.
  destruct x as [sx|sx| |sx mx ex], y as [sy|sy| |sy my ey]; simpl;
    try destruct sx; try destruct sy; simpl; try reflexivity;
    rewrite (Z.compare_antisym ey ex);
    destruct (ey ?= ex)%Z; simpl; try reflexivity;
    pose proof (Pos.compare_cont_antisym mx my Eq) as H; simpl in H;
    rewrite <- H; destruct (Pos.compare_cont Eq mx my); reflexivity.
Qed.

Lemma SFcompare_refl (x : spec_float) :
  x <> S754_nan -> SFcompare x x = Some Eq.
Proof.
  destruct x as [s|s| |s m e]; simpl; intros Hx; try congruence.
  - destruct s; reflexivity.
  - rewrite Z.compare_refl, Pos.compare_cont_refl. destruct s; reflexivity.
Qed.

Lemma SFcompare_None (x y : spec_float) :
  SFcompare x y = None -> x = S754_nan \/ y = S754_nan.
Proof.
  destruct x as [sx|sx| |sx mx ex], y as [sy|sy| |sy my ey]; simpl;
    intros H; try discriminate H; auto.
Qed.

Lemma is_nan_false (x : float) : is_nan x = false <-> Prim2SF x <> S754_nan.
Proof.
  unfold is_nan. rewrite FloatAxioms.eqb_spec. unfold SFeqb. split.
  - intros H Hn. rewrite Hn in H. discriminate H.
  - intros H. rewrite (SFcompare_refl _ H). reflexivity.
Qed.

Lemma is_finite_not_nan (x : float) : is_finite x = true -> is_nan x = false.
Proof.
  unfold is_finite. destruct (is_nan x); [discriminate | reflexivity].
Qed.

Lemma ltb_not_nan (x y : float) :
  (x <? y)%float = true -> is_nan x = false /\ is_nan y = false.
Proof.
  rewrite ltb_spec. unfold SFltb. rewrite !is_nan_false.
  destruct (Prim2SF x), (Prim2SF y); simpl; intros H; try discriminate H;
    split; discriminate.
Qed.

Lemma leb_not_nan (x y : float) :
  (x <=? y)%float = true -> is_nan x = false /\ is_nan y = false.
Proof.
  rewrite leb_spec. unfold SFleb. rewrite !is_nan_false.
  destruct (Prim2SF x), (Prim2SF y); simpl; intros H; try discriminate H;
    split; discriminate.
Qed.

(** [x < y] excludes [y <= x]. *)
Lemma ltb_leb_false (x y : float) :
  (x <? y)%float = true -> (y <=? x)%float = false.
Proof.
  rewrite ltb_spec, leb_spec. unfold SFltb, SFleb.
  rewrite (SFcompare_antisym (Prim2SF x) (Prim2SF y)).
  destruct (SFcompare (Prim2SF x) (Prim2SF y)) as [[]|]; simpl; congruence.
Qed.

(** [x <= y] excludes [y < x]. *)
Lemma leb_ltb_false (x y : float) :
  (x <=? y)%float = true -> (y <? x)%float = false.
Proof.
  rewrite ltb_spec, leb_spec. unfold SFltb, SFleb.
  rewrite (SFcompare_antisym (Prim2SF x) (Prim2SF y)).
  destruct (SFcompare (Prim2SF x) (Prim2SF y)) as [[]|]; simpl; congruence.
Qed.

(** On numbers the order is total: not [x < y] gives [y <= x]. *)
Lemma not_ltb_leb (x y : float) :
  is_nan x = false -> is_nan y = false ->
  (x <? y)%float = false -> (y <=? x)%float = true.
Proof.
  rewrite !is_nan_false, ltb_spec, leb_spec. unfold SFltb, SFleb.
  intros Hx Hy. rewrite (SFcompare_antisym (Prim2SF x) (Prim2SF y)).
  destruct (SFcompare (Prim2SF x) (Prim2SF y)) as [[]|] eqn:E; simpl;
    try congruence.
  destruct (SFcompare_None _ _ E); contradiction.
Qed.

(** Above a positive number means above zero. *)
Lemma ltb_above_positive (c d : float) :
  (0 <? c)%float = true -> (c <? d)%float = true -> (0 <? d)%float = true.
Proof.
  rewrite !ltb_spec. unfold SFltb.
  change (Prim2SF 0) with (S754_zero false).
  destruct (Prim2SF c) as [sc|sc| |sc mc ec], (Prim2SF d) as [sd|sd| |sd md ed];
    simpl; try destruct sc; try destruct sd; simpl; congruence.
Qed.

(** The comparison of two finite values of one sign: exponents first,
    then mantissas. *)
Lemma lex_compare_trans (c : comparison) (e1 e2 e3 : Z) (m1 m2 m3 : positive) :
  c <> Eq ->
  match (e1 ?= e2)%Z with Lt => Lt | Gt => Gt | Eq => Pos.compare_cont Eq m1 m2 end = c ->
  match (e2 ?= e3)%Z with Lt => Lt | Gt => Gt | Eq => Pos.compare_cont Eq m2 m3 end = c ->
  match (e1 ?= e3)%Z with Lt => Lt | Gt => Gt | Eq => Pos.compare_cont Eq m1 m3 end = c.
Proof.
  change (Pos.compare_cont Eq m1 m2) with (m1 ?= m2)%positive.
  change (Pos.compare_cont Eq m2 m3) with (m2 ?= m3)%positive.
  change (Pos.compare_cont Eq m1 m3) with (m1 ?= m3)%positive.
  intros Hc.
  destruct (Z.compare_spec e1 e2), (Z.compare_spec e2 e3), (Z.compare_spec e1 e3);
    try lia; intros <-; try congruence;
    destruct (Pos.compare_spec m1 m2), (Pos.compare_spec m2 m3),
      (Pos.compare_spec m1 m3); try lia; congruence.
Qed.

(** [<] is transitive. *)
Lemma ltb_trans (x y z : float) :
  (x <? y)%float = true -> (y <? z)%float = true -> (x <? z)%float = true.
Proof.
  rewrite !ltb_spec. unfold SFltb.
  destruct (Prim2SF x) as [sx|sx| |sx mx ex], (Prim2SF y) as [sy|sy| |sy my ey],
    (Prim2SF z) as [sz|sz| |sz mz ez]; simpl;
    try destruct sx; try destruct sy; try destruct sz; simpl; try congruence.
  - intros H1 H2.
    assert (E : match (ex ?= ez)%Z with
                | Lt => Lt | Gt => Gt | Eq => Pos.compare_cont Eq mx mz end = Gt).
    { apply (lex_compare_trans Gt ex ey ez mx my mz); [discriminate| |].
      - destruct (ex ?= ey)%Z; try congruence.
        destruct (Pos.compare_cont Eq mx my); simpl in H1; congruence.
      - destruct (ey ?= ez)%Z; try congruence.
        destruct (Pos.compare_cont Eq my mz); simpl in H2; congruence. }
    destruct (ex ?= ez)%Z; try congruence. rewrite E. reflexivity.
  - intros H1 H2.
    assert (E : match (ex ?= ez)%Z with
                | Lt => Lt | Gt => Gt | Eq => Pos.compare_cont Eq mx mz end = Lt).
    { apply (lex_compare_trans Lt ex ey ez mx my mz); [discriminate| |].
      - destruct (ex ?= ey)%Z; try congruence.
        destruct (Pos.compare_cont Eq mx my); congruence.
      - destruct (ey ?= ez)%Z; try congruence.
        destruct (Pos.compare_cont Eq my mz); congruence. }
    rewrite E. reflexivity.
Qed.

End FloatOrder.

(** ** The sensor stream engine *)

Module SensorFacts.
Import Py SensorEngine.

(** Python's [l[-n:]] is the specification's "last [n], or all". *)
Lemma slice_from_last_n {A} (n : nat) (l : list A) :
  slice_from l (- Z.of_nat (S n)) = Spec.last_n (S n) l.
Proof.
  unfold slice_from, Spec.last_n.
  replace (- Z.of_nat (S n) <? 0)%Z with true by (symmetry; apply Z.ltb_lt; lia).
  destruct (Nat.ltb_spec (length l) (S n)) as [Hlt|Hge].
  - replace (Z.to_nat _) with 0%nat by lia. reflexivity.
  - rewrite take_reverse, reverse_involutive. f_equal. lia.
Qed.

Lemma slice_from_map {A B} (f : A -> B) (l : list A) (start : Z) :
  slice_from (map f l) start = map f (slice_from l start).
Proof.
  unfold slice_from. rewrite length_map. apply skipn_map.
Qed.

(** The readings [ingest_real_readings] stores carry the raw values, in
    order, numbered from 1. *)
Lemma enumerate_from_values {A} (k : Z) (l : list A) :
  map snd (enumerate_from k l) = l.
Proof.
  revert k. induction l as [|x l IH]; intros k; simpl; [reflexivity|].
  now rewrite IH.
Qed.

Lemma ingest_stored_values (raw_values : list float) (design_sbc : float) :
  map sbc_kNm2 (readings (ingest_real_readings raw_values design_sbc)) = raw_values.
Proof.
  unfold ingest_real_readings.
  destruct (length raw_values <? 3)%nat; simpl; rewrite map_map;
    rewrite <- (enumerate_from_values 0 raw_values) at 2;
    apply map_ext; intros [i v]; reflexivity.
Qed.

Section Simulate.

Variable src : Np.RandomSource.

Lemma loop_body_detected design_sbc deviation_start st i :
  ls_detected src (loop_body src design_sbc deviation_start st i) =
  (deviation_start <=? i)%Z || ls_detected src st.
Proof.
  unfold loop_body.
  destruct (deviation_start <=? i)%Z;
    destruct (Np.normal src _ _ _); reflexivity.
Qed.

Lemma loop_body_readings design_sbc deviation_start st i :
  length (ls_readings src (loop_body src design_sbc deviation_start st i)) =
  S (length (ls_readings src st)).
Proof.
  unfold loop_body.
  destruct (deviation_start <=? i)%Z;
    destruct (Np.normal src _ _ _); simpl; rewrite length_app; simpl; lia.
Qed.

(** The loop sets the flag exactly when some index of its range is at or
    after the degradation start. *)
Lemma loop_detected design_sbc deviation_start (l : list Z) st :
  ls_detected src (fold_left (loop_body src design_sbc deviation_start) l st) =
  existsb (fun i => (deviation_start <=? i)%Z) l || ls_detected src st.
Proof.
  revert st. induction l as [|i l IH]; intros st; simpl; [reflexivity|].
  rewrite IH, loop_body_detected.
  destruct (deviation_start <=? i)%Z, (existsb _ l), (ls_detected src st);
    reflexivity.
Qed.

Lemma loop_readings design_sbc deviation_start (l : list Z) st :
  length (ls_readings src (fold_left (loop_body src design_sbc deviation_start) l st)) =
  (length l + length (ls_readings src st))%nat.
Proof.
  revert st. induction l as [|i l IH]; intros st; simpl; [reflexivity|].
  rewrite IH, loop_body_readings. lia.
Qed.

(** What a returned result is made of. *)
Lemma simulate_stream_Ok design_sbc deviation_start total seed r :
  simulate_stream src design_sbc deviation_start total seed = Ok r ->
  exists rng,
    Np.default_rng src seed = Ok rng /\
    let st :=
      fold_left (loop_body src design_sbc deviation_start) (range 1 (total + 1))
        {| ls_rng := rng; ls_readings := []; ls_detected := false |} in
    readings r = ls_readings src st /\
    deviation_detected r = ls_detected src st /\
    deviation_percent r =
      py_round
        (if ls_detected src st
         then ((design_sbc -
                Np.mean (map sbc_kNm2 (slice_from (ls_readings src st) (-5)))) /
               design_sbc * 100)%float
         else 0%float) 2 /\
    alert_level r = alert_level_of (deviation_percent r) /\
    trigger_recal r = (5.0 <? deviation_percent r)%float.
Proof.
  unfold simulate_stream. destruct (Np.default_rng src seed) as [rng|e]; simpl;
    [|discriminate].
  intros [= <-]. exists rng. simpl. repeat split; reflexivity.
Qed.

End Simulate.

End SensorFacts.

(** ** Alert classification *)

Module RoundingFacts.

(** [numpy.rint] keeps the sign of its argument: halves go to the even
    neighbour on both sides of zero, and a negative value that rounds to
    zero gives the negative zero. *)
Lemma rint_values :
  map Np.rint [2.5; 3.5; 0.25; -2.5; -3.5; -0.25; -1111.25; -0.0]%float =
    [2; 4; 0; -2; -4; -0; -1111; -0]%float.
Proof. vm_compute. reflexivity. Qed.

(** The scalar [round] of NumPy on both sides of zero; 0.125 and 2.675
    show the scaling (CPython's [round] gives 0.12 and 2.67). *)
Lemma round_values :
  map (fun x => Np.round x 2) [13.5625; -13.5625; 0.125; -0.125; 2.675]%float =
    [13.56; -13.56; 0.12; -0.12; 2.68]%float /\
  map (fun x => Py.py_round x 2) [0.125; -0.125; 2.675; -2.675]%float =
    [0.12; -0.12; 2.67; -2.67]%float.
Proof. split; vm_compute; reflexivity. Qed.

(** Readings above the baseline give a negative deviation, which is
    neither detected nor alerted. *)
Lemma ingest_above_baseline :
  let r := SensorEngine.ingest_real_readings [200; 200; 200]%float 180%float in
  SensorEngine.deviation_percent r = (-11.11)%float /\
  SensorEngine.deviation_detected r = false /\
  SensorEngine.alert_level r = "NONE" /\
  SensorEngine.trigger_recal r = false.
Proof. vm_compute. repeat split; reflexivity. Qed.

End RoundingFacts.

Section AlertBands.
Import Py SensorEngine FloatOrder.

Lemma above_20_above_10 (d : float) : (20 <? d)%float = true -> (10 <? d)%float = true.
Proof. apply ltb_trans. reflexivity. Qed.

Lemma above_10_above_5 (d : float) : (10 <? d)%float = true -> (5 <? d)%float = true.
Proof. apply ltb_trans. reflexivity. Qed.

Ltac bands_cases :=
  repeat split; intros;
  repeat match goal with H : _ /\ _ |- _ => destruct H end;
  congruence.

(** The four labels against the three thresholds, for one value. *)
Lemma alert_level_of_bands (d : float) :
  (alert_level_of d = "CRITICAL" <-> (20 <? d)%float = true) /\
  (alert_level_of d = "WARNING" <->
     (10 <? d)%float = true /\ (d <=? 20)%float = true) /\
  (alert_level_of d = "WATCH" <->
     (5 <? d)%float = true /\ (d <=? 10)%float = true) /\
  (alert_level_of d = "NONE" <-> (5 <? d)%float = false).
Proof.
  unfold alert_level_of.
  destruct (20 <? d)%float eqn:H20.
  { pose proof (above_20_above_10 d H20) as H10.
    pose proof (above_10_above_5 d H10) as H5.
    pose proof (ltb_leb_false _ _ H20). pose proof (ltb_leb_false _ _ H10).
    bands_cases. }
  destruct (10 <? d)%float eqn:H10.
  { pose proof (above_10_above_5 d H10) as H5.
    pose proof (ltb_leb_false _ _ H10) as L10.
    destruct (ltb_not_nan _ _ H10) as [_ Hd].
    pose proof (not_ltb_leb 20 d eq_refl Hd H20).
    bands_cases. }
  destruct (5 <? d)%float eqn:H5.
  { destruct (ltb_not_nan _ _ H5) as [_ Hd].
    pose proof (not_ltb_leb 10 d eq_refl Hd H10).
    bands_cases. }
  bands_cases.
Qed.

End AlertBands.

Section SensorClaims.
Import Py SensorEngine FloatOrder SensorFacts.

(** C2.  In both entry paths the alert level is a function of the rounded
    deviation alone, and for every value it is exactly one of NONE, WATCH,
    WARNING and CRITICAL: CRITICAL iff the deviation is above 20, WARNING
    iff it is above 10 and at most 20, WATCH iff it is above 5 and at most
    10, NONE otherwise (for a number: iff it is at most 5).  The
    comparisons are strict, so exactly 5, 10 and 20 fall into the lower
    band. *)
Theorem alert_level_bands :
  (forall d : float,
     (alert_level_of d = "CRITICAL" <-> (20 <? d)%float = true) /\
     (alert_level_of d = "WARNING" <->
        (10 <? d)%float = true /\ (d <=? 20)%float = true) /\
     (alert_level_of d = "WATCH" <->
        (5 <? d)%float = true /\ (d <=? 10)%float = true) /\
     (alert_level_of d = "NONE" <-> (5 <? d)%float = false) /\
     (is_nan d = false ->
        (alert_level_of d = "NONE" <-> (d <=? 5)%float = true)) /\
     alert_level_of d ∈ ["NONE"; "WATCH"; "WARNING"; "CRITICAL"]) /\
  (alert_level_of 5 = "NONE" /\ alert_level_of 10 = "WATCH" /\
   alert_level_of 20 = "WARNING") /\
  (forall raw_values design_sbc,
     let r := ingest_real_readings raw_values design_sbc in
     alert_level r = alert_level_of (deviation_percent r)) /\
  (forall src design_sbc deviation_start total seed r,
     simulate_stream src design_sbc deviation_start total seed = Ok r ->
     alert_level r = alert_level_of (deviation_percent r)).
Proof.
  split; [|split; [|split]].
  - intros d.
    destruct (alert_level_of_bands d) as (Hc & Hw & Hwatch & Hn).
    split; [exact Hc|]. split; [exact Hw|]. split; [exact Hwatch|].
    split; [exact Hn|]. split.
    + intros Hd. split.
      * intros HN. apply Hn in HN. now apply (not_ltb_leb 5 d).
      * intros Hle. apply Hn. now apply leb_ltb_false.
    + clear. unfold alert_level_of.
      destruct (20 <? d)%float, (10 <? d)%float, (5 <? d)%float;
        repeat constructor.
  - repeat split; reflexivity.
  - intros raw_values design_sbc. unfold ingest_real_readings.
    destruct (length raw_values <? 3)%nat; reflexivity.
  - intros src design_sbc deviation_start total seed r Hr.
    destruct (simulate_stream_Ok _ _ _ _ _ _ Hr) as (rng & _ & Hres).
    apply Hres.
Qed.

(** An instance of C2: a deviation of 16.89 is above 10 and at most 20,
    so it is a WARNING. *)
Lemma alert_level_bands_witness :
  ((10 <? 16.89)%float = true /\ (16.89 <=? 20)%float = true) /\
  alert_level_of 16.89 = "WARNING".
Proof.
  split; [split; reflexivity|].
  apply (proj1 alert_level_bands 16.89%float). split; reflexivity.
Defined.

(** The loop of [simulate_stream] reaches a degraded index whenever the
    degradation start lies in [1..total]. *)
Lemma range_reaches_start (deviation_start total : Z) :
  (1 <= deviation_start <= total)%Z ->
  existsb (fun i => (deviation_start <=? i)%Z) (range 1 (total + 1)) = true.
Proof.
  intros H. apply existsb_exists. exists total. split.
  - apply list_elem_of_In, elem_of_seqZ. lia.
  - apply Z.leb_le. lia.
Qed.



(** C4.  On every result of either entry path, including the
    fewer-than-3-samples branch, [trigger_recal] is true exactly when the
    rounded deviation is above 5.0; the alert label plays no part. *)
Theorem trigger_iff_above_minor :
  (forall raw_values design_sbc,
     let r := ingest_real_readings raw_values design_sbc in
     trigger_recal r = true <-> (5.0 <? deviation_percent r)%float = true) /\
  (forall src design_sbc deviation_start total seed r,
     simulate_stream src design_sbc deviation_start total seed = Ok r ->
     (trigger_recal r = true <-> (5.0 <? deviation_percent r)%float = true)).
Proof.
  split.
  - intros raw_values design_sbc. unfold ingest_real_readings.
    destruct (length raw_values <? 3)%nat; simpl.
    + change (5.0 <? 0.0)%float with false. tauto.
    + tauto.
  - intros src design_sbc deviation_start total seed r Hr.
    destruct (simulate_stream_Ok _ _ _ _ _ _ Hr) as (rng & _ & Hres).
    simpl in Hres. destruct Hres as (_ & _ & _ & _ & ->). tauto.
Qed.

(** An instance of C4: a simulated stream whose result triggers. *)
Lemma trigger_iff_above_minor_witness :
  exists r,
    simulate_stream (Scripted.source Scripted.script20) 180 12 20 None = Ok r /\
    (trigger_recal r = true <-> (5.0 <? deviation_percent r)%float = true).
Proof.
  destruct (simulate_stream (Scripted.source Scripted.script20) 180 12 20 None)
    as [r|e] eqn:E; [|vm_compute in E; discriminate E].
  exists r. split; [reflexivity|].
  exact (proj2 trigger_iff_above_minor _ _ _ _ _ _ E).
Defined.

(** C6.  A raw-value sequence with fewer than 3 entries yields, whatever
    the values and the baseline, a result with no deviation detected,
    deviation 0.0, alert NONE and no trigger. *)
Theorem short_raw_sequence_no_deviation (raw_values : list float) (design_sbc : float) :
  (length raw_values < 3)%nat ->
  let r := ingest_real_readings raw_values design_sbc in
  deviation_detected r = false /\
  deviation_percent r = 0.0%float /\
  alert_level r = "NONE" /\
  trigger_recal r = false.
Proof.
  intros Hlen r. subst r. unfold ingest_real_readings.
  destruct (Nat.ltb_spec (length raw_values) 3) as [_|Hge]; [|lia].
  simpl. repeat split.
Qed.

(** An instance of C6: two far-off samples against baseline 180. *)
Lemma short_raw_sequence_no_deviation_witness :
  let r := ingest_real_readings [10; 20]%float 180%float in
  (length [10; 20]%float < 3)%nat /\
  deviation_detected r = false /\ deviation_percent r = 0.0%float /\
  alert_level r = "NONE" /\ trigger_recal r = false.
Proof.
  split; [simpl; lia|].
  apply (short_raw_sequence_no_deviation [10; 20]%float 180%float). simpl; lia.
Defined.

(** C7.  Every result of either entry path satisfies: a trigger implies a
    detected deviation. *)
Theorem trigger_implies_detected :
  (forall raw_values design_sbc,
     let r := ingest_real_readings raw_values design_sbc in
     trigger_recal r = true -> deviation_detected r = true) /\
  (forall src design_sbc deviation_start total seed r,
     simulate_stream src design_sbc deviation_start total seed = Ok r ->
     trigger_recal r = true -> deviation_detected r = true).
Proof.
  split.
  - intros raw_values design_sbc. unfold ingest_real_readings.
    destruct (length raw_values <? 3)%nat; simpl; [discriminate|].
    apply ltb_above_positive. reflexivity.
  - intros src design_sbc deviation_start total seed r Hr.
    destruct (simulate_stream_Ok _ _ _ _ _ _ Hr) as (rng & _ & Hres).
    simpl in Hres. destruct Hres as (_ & -> & Hdev & _ & ->).
    rewrite Hdev. clear Hdev.
    destruct (ls_detected src _); [reflexivity|].
    change (py_round 0 2) with 0%float. discriminate.
Qed.

(** An instance of C7 on each path, both with a trigger. *)
Lemma trigger_implies_detected_witness :
  (let r := ingest_real_readings [180; 150; 148; 151; 149]%float 180%float in
   trigger_recal r = true /\ deviation_detected r = true) /\
  exists r,
    simulate_stream (Scripted.source Scripted.script20) 180 12 20 None = Ok r /\
    trigger_recal r = true /\ deviation_detected r = true.
Proof.
  split.
  - assert (H : trigger_recal
                  (ingest_real_readings [180; 150; 148; 151; 149]%float 180%float) = true)
      by (vm_compute; reflexivity).
    split; [exact H|].
    exact (proj1 trigger_implies_detected _ _ H).
  - destruct (simulate_stream (Scripted.source Scripted.script20) 180 12 20 None)
      as [r|e] eqn:E; [|vm_compute in E; discriminate E].
    assert (H : trigger_recal r = true).
    { vm_compute in E. injection E as <-. reflexivity. }
    exists r. split; [reflexivity|]. split; [exact H|].
    exact (proj2 trigger_implies_detected _ _ _ _ _ _ E H).
Defined.

End SensorClaims.

(** ** The recalibration engine *)

Module RecalibrationFacts.
Import Py RecalibrationEngine FloatOrder.

Lemma is_codes_foundation :
  subscript Config.IS_CODES "foundation" = Ok "IS 1080, IS 6403".
Proof. vm_compute. reflexivity. Qed.

Lemma is_codes_seismic :
  subscript Config.IS_CODES "seismic" = Ok "IS 1893 (Part 1)".
Proof. vm_compute. reflexivity. Qed.

Section WithServices.

Variable json_loads : string -> pyresult pyval.
Variable svc : GeminiClient.Service.

(** The [except] clause makes [_gemini_explanations] total. *)
Lemma gemini_explanations_returns d action sev ctx variant :
  exists rationale site_instr,
    _gemini_explanations json_loads svc d action sev ctx variant =
      Ok (rationale, site_instr).
Proof.
  unfold _gemini_explanations.
  destruct (GeminiClient.call_gemini_json json_loads svc _ true) as [result|e];
    simpl; [|eauto].
  destruct result; simpl; eauto.
Qed.

(** [generate_patch] returns, and its fields are those of the selected
    base action and of the explanations. *)
Lemma generate_patch_returns d ctx variant budget :
  let ba := determine_base_action d in
  exists p,
    generate_patch json_loads svc d ctx variant budget = Ok p /\
    _gemini_explanations json_loads svc d (ba_action ba) (ba_severity ba) ctx variant =
      Ok (gemini_rationale p, site_instructions p) /\
    severity p = ba_severity ba /\
    structural_action p = ba_action ba /\
    add_depth_mm p = ba_add_depth_mm ba /\
    add_piles p = ba_add_piles ba /\
    new_risk_band p = ba_new_risk_band ba /\
    cost_delta_cr p = py_round (budget * ba_cost_delta_pct ba)%float 2 /\
    requires_approval p = bool_decide (ba_severity ba ∈ ["CRITICAL"; "MODERATE"]).
Proof.
  intros ba. unfold generate_patch. fold ba.
  destruct (gemini_explanations_returns d (ba_action ba) (ba_severity ba) ctx variant)
    as (rationale & site_instr & E).
  rewrite E. simpl. rewrite is_codes_foundation, is_codes_seismic. simpl.
  eexists. split; [reflexivity|]. simpl. repeat split.
Qed.

End WithServices.

(** The branch taken under each condition of the policy table. *)
Lemma base_action_critical d :
  Spec.is_critical d = true ->
  determine_base_action d =
    {| ba_severity := "CRITICAL"; ba_add_depth_mm := 600; ba_add_piles := 4;
       ba_new_risk_band := "LOW"; ba_cost_delta_pct := 0.18;
       ba_action := "Increase founding depth by 600mm. Add 4 bored cast-in-situ piles per column. Perform additional plate load test per IS 1888." |}.
Proof.
  unfold Spec.is_critical, determine_base_action.
  change Config.DEVIATION_CRITICAL with 20%float. now intros ->.
Qed.

Lemma base_action_moderate d :
  Spec.is_moderate d = true ->
  determine_base_action d =
    {| ba_severity := "MODERATE"; ba_add_depth_mm := 350; ba_add_piles := 2;
       ba_new_risk_band := "MODERATE"; ba_cost_delta_pct := 0.09;
       ba_action := "Increase founding depth by 350mm. Add 2 piles for load redistribution. Recheck SBC with dynamic cone penetration test." |}.
Proof.
  unfold Spec.is_moderate, determine_base_action.
  change Config.DEVIATION_CRITICAL with 20%float.
  change Config.DEVIATION_MODERATE with 10%float.
  intros [H10 H20]%andb_prop.
  now rewrite (leb_ltb_false _ _ H20), H10.
Qed.

Lemma base_action_minor d :
  (10 <? d)%float = false ->
  determine_base_action d =
    {| ba_severity := "MINOR"; ba_add_depth_mm := 150; ba_add_piles := 0;
       ba_new_risk_band := "LOW-MODERATE"; ba_cost_delta_pct := 0.03;
       ba_action := "Increase reinforcement grade from Fe415 to Fe500. Add 150mm to footing depth as precaution." |}.
Proof.
  unfold determine_base_action.
  change Config.DEVIATION_CRITICAL with 20%float.
  change Config.DEVIATION_MODERATE with 10%float.
  intros H10. rewrite H10.
  destruct (20 <? d)%float eqn:H20; [|reflexivity].
  apply (ltb_trans 10 20 d eq_refl) in H20. congruence.
Qed.

(** A patch built from the selected base action obeys the policy table. *)
Lemma base_action_tier_mapping d budget p :
  let ba := determine_base_action d in
  severity p = ba_severity ba ->
  add_depth_mm p = ba_add_depth_mm ba ->
  add_piles p = ba_add_piles ba ->
  new_risk_band p = ba_new_risk_band ba ->
  cost_delta_cr p = py_round (budget * ba_cost_delta_pct ba)%float 2 ->
  requires_approval p = bool_decide (ba_severity ba ∈ ["CRITICAL"; "MODERATE"]) ->
  Spec.tier_mapping d budget p.
Proof.
  intros ba Hs Hd Hp Hb Hc Ha. unfold Spec.tier_mapping, Spec.tier_row.
  rewrite Hs, Hd, Hp, Hb, Hc, Ha. subst ba.
  split; [|split]; intros H.
  - rewrite (base_action_critical d H). repeat split.
  - rewrite (base_action_moderate d H). repeat split.
  - rewrite (base_action_minor d (leb_ltb_false _ _ H)). repeat split.
Qed.

(** On a number exactly one condition of the table holds. *)
Lemma conditions_exactly_one d :
  is_nan d = false ->
  Spec.exactly_one (Spec.is_critical d) (Spec.is_moderate d) (Spec.is_minor d).
Proof.
  intros Hd. unfold Spec.exactly_one, Spec.is_critical, Spec.is_moderate, Spec.is_minor.
  destruct (20 <? d)%float eqn:H20.
  - left. pose proof (ltb_trans 10 20 d eq_refl H20) as H10.
    rewrite (ltb_leb_false _ _ H20), (ltb_leb_false _ _ H10), H10. auto.
  - destruct (10 <? d)%float eqn:H10.
    + right; left.
      rewrite (not_ltb_leb 20 d eq_refl Hd H20), (ltb_leb_false _ _ H10). auto.
    + right; right. rewrite (not_ltb_leb 10 d eq_refl Hd H10). auto.
Qed.

End RecalibrationFacts.

Section PolicyClaims.
Import Py RecalibrationEngine FloatOrder RecalibrationFacts.

(** C1.  For every deviation and budget, [generate_patch] never raises
    and returns a patch that obeys the policy table: above 20 it is
    CRITICAL with 600 mm, 4 piles, band LOW, fraction 0.18 and approval
    required; above 10 and at most 20 it is MODERATE with 350 mm, 2 piles,
    band MODERATE, fraction 0.09 and approval required; at most 10 (zero
    and negative values included) it is MINOR with 150 mm, 0 piles, band
    LOW-MODERATE, fraction 0.03 and no approval.  On a finite deviation
    exactly one of the three conditions holds. *)
Theorem generate_patch_tiers (json_loads : string -> pyresult pyval)
    (svc : GeminiClient.Service) (d : float) (project_context : string)
    (current_variant : option pyval) (budget_cr : float) :
  exists p,
    generate_patch json_loads svc d project_context current_variant budget_cr = Ok p /\
    Spec.tier_mapping d budget_cr p /\
    severity p ∈ ["CRITICAL"; "MODERATE"; "MINOR"] /\
    (is_finite d = true ->
     Spec.exactly_one (Spec.is_critical d) (Spec.is_moderate d) (Spec.is_minor d)).
Proof.
  destruct (generate_patch_returns json_loads svc d project_context current_variant
              budget_cr) as (p & Hp & _ & Hs & _ & Hd & Hpi & Hb & Hc & Ha).
  exists p. split; [exact Hp|]. split; [|split].
  - now apply base_action_tier_mapping.
  - rewrite Hs. unfold determine_base_action.
    destruct (_ <? d)%float; [|destruct (_ <? d)%float]; repeat constructor.
  - intros Hfin. apply conditions_exactly_one. now apply is_finite_not_nan.
Qed.

(** An instance of C1: a negative deviation is finite, falls under the
    last condition only, and gets the MINOR row. *)
Lemma generate_patch_tiers_witness :
  is_finite (-3.5)%float = true /\
  Spec.is_minor (-3.5)%float = true /\
  exists p,
    generate_patch Scripted.json_loads_braces Scripted.service_down
      (-3.5)%float "" None 10%float = Ok p /\
    Spec.tier_row p 10%float "MINOR" 150 0 "LOW-MODERATE" 0.03 false /\
    Spec.exactly_one (Spec.is_critical (-3.5)%float) (Spec.is_moderate (-3.5)%float)
      (Spec.is_minor (-3.5)%float).
Proof.
  split; [reflexivity|]. split; [reflexivity|].
  destruct (generate_patch_tiers Scripted.json_loads_braces Scripted.service_down
              (-3.5)%float "" None 10%float)
    as (p & Hp & (_ & _ & Hminor) & _ & Hone).
  exists p. split; [exact Hp|]. split.
  - apply Hminor. reflexivity.
  - apply Hone. reflexivity.
Defined.

(** C8.  If the enrichment call fails with any exception, [generate_patch]
    still returns a patch: its numeric fields obey the policy table, and
    its rationale and site instructions are the non-empty fallback strings,
    which depend on the deviation and the action only. *)
Theorem enrichment_failure_falls_back (json_loads : string -> pyresult pyval)
    (svc : GeminiClient.Service) (d : float) (project_context : string)
    (current_variant : option pyval) (budget_cr : float) (e : exn) :
  let ba := determine_base_action d in
  GeminiClient.call_gemini_json json_loads svc
    (explanation_prompt d (ba_action ba) (ba_severity ba) project_context
       current_variant) true = Raise e ->
  exists p,
    generate_patch json_loads svc d project_context current_variant budget_cr = Ok p /\
    Spec.tier_mapping d budget_cr p /\
    gemini_rationale p = PStr (fallback_rationale d) /\
    site_instructions p = PStr (fallback_site_instructions (structural_action p)) /\
    fallback_rationale d <> "" /\
    fallback_site_instructions (structural_action p) <> "".
Proof.
  intros ba Hfail.
  destruct (generate_patch_returns json_loads svc d project_context current_variant
              budget_cr) as (p & Hp & Hexpl & Hs & Hact & Hd & Hpi & Hb & Hc & Ha).
  fold ba in Hexpl, Hact.
  unfold _gemini_explanations in Hexpl. rewrite Hfail in Hexpl. simpl in Hexpl.
  injection Hexpl as Hr Hsi.
  exists p. split; [exact Hp|]. split; [now apply base_action_tier_mapping|].
  rewrite Hact. repeat split; try congruence; discriminate.
Qed.

(** An instance of C8: the service is unreachable. *)
Lemma enrichment_failure_falls_back_witness :
  exists p,
    generate_patch Scripted.json_loads_braces Scripted.service_down
      16.89%float "" None 10%float = Ok p /\
    Spec.tier_mapping 16.89%float 10%float p /\
    gemini_rationale p = PStr (fallback_rationale 16.89%float) /\
    site_instructions p = PStr (fallback_site_instructions (structural_action p)) /\
    fallback_rationale 16.89%float <> "" /\
    fallback_site_instructions (structural_action p) <> "".
Proof.
  apply (enrichment_failure_falls_back Scripted.json_loads_braces
           Scripted.service_down 16.89%float "" None 10%float
           (Exn "ConnectionError" "service unreachable")).
  reflexivity.
Defined.

(** The text of a fenced empty object, once [call_gemini_json] has
    removed the fences and the surrounding blanks. *)
Lemma fenced_braces_cleaned :
  strip (rstrip_by GeminiClient.is_backtick
           (strip (GeminiClient.sub_fences 0 "```json {} ```"))) = "{}".
Proof. vm_compute. reflexivity. Qed.

(** C10.  If the enrichment call succeeds with a JSON object, each patch
    field is the object's value under its key, and the empty string (not
    the fallback text) when the key is missing.  A patch whose two
    enrichment fields are both empty is therefore reachable without any
    failure of the service: it is what an answer holding an empty object
    (here inside a code fence) produces. *)
Theorem missing_keys_give_empty_strings :
  (forall (json_loads : string -> pyresult pyval) (svc : GeminiClient.Service)
          (d : float) (project_context : string) (current_variant : option pyval)
          (budget_cr : float) (result : gmap string pyval),
     let ba := determine_base_action d in
     GeminiClient.call_gemini_json json_loads svc
       (explanation_prompt d (ba_action ba) (ba_severity ba) project_context
          current_variant) true = Ok (PDict result) ->
     exists p,
       generate_patch json_loads svc d project_context current_variant budget_cr =
         Ok p /\
       gemini_rationale p = default (PStr "") (result !! "rationale") /\
       site_instructions p = default (PStr "") (result !! "site_instructions") /\
       (result !! "rationale" = None -> gemini_rationale p = PStr "") /\
       (result !! "site_instructions" = None -> site_instructions p = PStr "")) /\
  (forall (json_loads : string -> pyresult pyval) (d : float)
          (project_context : string) (current_variant : option pyval)
          (budget_cr : float),
     json_loads "{}" = Ok (PDict ∅) ->
     let ba := determine_base_action d in
     GeminiClient.call_gemini Scripted.service_empty_object
       (explanation_prompt d (ba_action ba) (ba_severity ba) project_context
          current_variant) true true = Ok (Some "```json {} ```") /\
     exists p,
       generate_patch json_loads Scripted.service_empty_object d project_context
         current_variant budget_cr = Ok p /\
       gemini_rationale p = PStr "" /\ site_instructions p = PStr "").
Proof.
  assert (Hfirst : forall (json_loads : string -> pyresult pyval)
            (svc : GeminiClient.Service) (d : float) (project_context : string)
            (current_variant : option pyval) (budget_cr : float)
            (result : gmap string pyval),
            GeminiClient.call_gemini_json json_loads svc
              (explanation_prompt d (ba_action (determine_base_action d))
                 (ba_severity (determine_base_action d)) project_context
                 current_variant) true = Ok (PDict result) ->
            exists p,
              generate_patch json_loads svc d project_context current_variant
                budget_cr = Ok p /\
              gemini_rationale p = default (PStr "") (result !! "rationale") /\
              site_instructions p =
                default (PStr "") (result !! "site_instructions")).
  { intros json_loads svc d project_context current_variant budget_cr result Hcall.
    destruct (generate_patch_returns json_loads svc d project_context current_variant
                budget_cr) as (p & Hp & Hexpl & _).
    unfold _gemini_explanations in Hexpl. rewrite Hcall in Hexpl. simpl in Hexpl.
    injection Hexpl as Hr Hsi.
    exists p. split; [exact Hp|]. rewrite <- Hr, <- Hsi.
    split; [now destruct (result !! "rationale")
           |now destruct (result !! "site_instructions")]. }
  split.
  - intros json_loads svc d project_context current_variant budget_cr result ba Hcall.
    destruct (Hfirst _ _ _ _ _ budget_cr _ Hcall) as (p & Hp & Hr & Hsi).
    exists p. split; [exact Hp|]. split; [exact Hr|]. split; [exact Hsi|].
    split; intros Hnone; [rewrite Hr|rewrite Hsi]; now rewrite Hnone.
  - intros json_loads d project_context current_variant budget_cr Hloads ba.
    split; [reflexivity|].
    destruct (Hfirst json_loads Scripted.service_empty_object d project_context
                current_variant budget_cr ∅) as (p & Hp & Hr & Hsi).
    { unfold GeminiClient.call_gemini_json.
      replace (GeminiClient.call_gemini Scripted.service_empty_object _ true true)
        with (Ok (A := option string) (Some "```json {} ```")) by reflexivity.
      cbn [bind]. rewrite fenced_braces_cleaned, Hloads. reflexivity. }
    exists p. split; [exact Hp|]. split; [exact Hr|exact Hsi].
Qed.

(** An instance of C10 with a parser that reads the empty object. *)
Lemma missing_keys_give_empty_strings_witness :
  Scripted.json_loads_braces "{}" = Ok (PDict ∅) /\
  exists p,
    generate_patch Scripted.json_loads_braces Scripted.service_empty_object
      25%float "" None 10%float = Ok p /\
    gemini_rationale p = PStr "" /\ site_instructions p = PStr "".
Proof.
  split; [reflexivity|].
  exact (proj2 (proj2 missing_keys_give_empty_strings Scripted.json_loads_braces
                  25%float "" None 10%float eq_refl)).
Defined.

End PolicyClaims.

Section ScenarioClaims.
Import Py SensorEngine FloatOrder SensorFacts RecalibrationFacts.

(** C5, as stated, fails: for raw readings 180, 150, 148, 151, 149
    against baseline 180 the window holds all five samples, the first one
    included, so the mean is 778 / 5 = 155.6 and not 149.6, and the
    deviation is 13.56 and not 16.89 (it stays below 14). *)
Lemma raw_scenario_values_differ :
  let raw := [180; 150; 148; 151; 149]%float in
  let r := ingest_real_readings raw 180%float in
  recent_avg raw = 155.6%float /\
  recent_avg raw <> 149.6%float /\
  deviation_percent r = 13.56%float /\
  deviation_percent r <> 16.89%float /\
  (deviation_percent r <? 14)%float = true.
Proof.
  assert (Havg : recent_avg [180; 150; 148; 151; 149]%float = 155.6%float)
    by (vm_compute; reflexivity).
  assert (Hdev : deviation_percent
                   (ingest_real_readings [180; 150; 148; 151; 149]%float 180%float) =
                 13.56%float) by (vm_compute; reflexivity).
  cbv zeta. rewrite Havg, Hdev. repeat split.
  - intros H. apply (f_equal (fun x => (x <? 150)%float)) in H. discriminate H.
  - intros H. apply (f_equal (fun x => (x <? 14)%float)) in H. discriminate H.
Qed.

(** C5, amended.  Raw readings 180, 150, 148, 151, 149 against baseline
    180 give recent_avg 155.6 and deviation 13.56, with alert WARNING and
    a trigger; the policy answers that deviation, and 16.89 as well, with
    severity MODERATE, 350 mm of added depth and 2 added piles. *)
Theorem raw_scenario_degraded :
  let raw := [180; 150; 148; 151; 149]%float in
  let r := ingest_real_readings raw 180%float in
  recent_avg raw = 155.6%float /\
  deviation_percent r = 13.56%float /\
  alert_level r = "WARNING" /\
  trigger_recal r = true /\
  forall (json_loads : string -> pyresult pyval) (svc : GeminiClient.Service)
         (d : float) (project_context : string) (current_variant : option pyval)
         (budget_cr : float),
    d = deviation_percent r \/ d = 16.89%float ->
    exists p,
      RecalibrationEngine.generate_patch json_loads svc d project_context
        current_variant budget_cr = Ok p /\
      RecalibrationEngine.severity p = "MODERATE" /\
      RecalibrationEngine.add_depth_mm p = 350%Z /\
      RecalibrationEngine.add_piles p = 2%Z.
Proof.
  cbv zeta. split; [vm_compute; reflexivity|].
  split; [vm_compute; reflexivity|].
  split; [vm_compute; reflexivity|].
  split; [vm_compute; reflexivity|].
  intros json_loads svc d project_context current_variant budget_cr Hd.
  destruct (generate_patch_returns json_loads svc d project_context current_variant
              budget_cr) as (p & Hp & _ & Hs & _ & Hdepth & Hpiles & _).
  assert (Hmod : Spec.is_moderate d = true).
  { destruct Hd as [-> | ->]; vm_compute; reflexivity. }
  rewrite (base_action_moderate d Hmod) in Hs, Hdepth, Hpiles.
  exists p. repeat split; assumption.
Qed.

(** C9, as stated, fails: [simulate_stream] checks none of its inputs.
    With a total of 0 it returns an empty result, and with a zero or
    negative baseline, or a start index outside [1..total], it returns a
    result as well. *)
Lemma invalid_inputs_not_rejected :
  let src := Scripted.source Scripted.script20 in
  (Spec.invalid_input 180 12 0 /\
   simulate_stream src 180 12 0 None =
     Ok {| readings := []; deviation_detected := false; deviation_percent := 0;
           alert_level := "NONE"; trigger_recal := false |}) /\
  (Spec.invalid_input 0 12 20 /\
   exists r, simulate_stream src 0 12 20 None = Ok r) /\
  (Spec.invalid_input (-180) 12 20 /\
   exists r, simulate_stream src (-180) 12 20 None = Ok r) /\
  (Spec.invalid_input 180 25 20 /\
   exists r, simulate_stream src 180 25 20 None = Ok r) /\
  (Spec.invalid_input 180 0 20 /\
   exists r, simulate_stream src 180 0 20 None = Ok r) /\
  ~ (forall src design_sbc deviation_start total seed,
       Spec.invalid_input design_sbc deviation_start total ->
       exists e,
         simulate_stream src design_sbc deviation_start total seed = Raise e).
Proof.
  cbv zeta. unfold Spec.invalid_input.
  split; [split; [right; left; lia|vm_compute; reflexivity]|].
  split; [split; [left; reflexivity|eexists; vm_compute; reflexivity]|].
  split; [split; [left; reflexivity|eexists; vm_compute; reflexivity]|].
  split; [split; [right; right; right; lia|eexists; vm_compute; reflexivity]|].
  split; [split; [right; right; left; lia|eexists; vm_compute; reflexivity]|].
  intros H.
  destruct (H (Scripted.source Scripted.script20) 180%float 12%Z 0%Z None)
    as [e He]; [right; left; lia|].
  vm_compute in He. discriminate He.
Qed.

(** The loop of [simulate_stream] reaches no degraded index when the
    degradation start lies above the total. *)
Lemma range_misses_start (deviation_start total : Z) :
  (total < deviation_start)%Z ->
  existsb (fun i => (deviation_start <=? i)%Z) (range 1 (total + 1)) = false.
Proof.
  intros H. destruct (existsb _ _) eqn:E; [|reflexivity].
  apply existsb_exists in E as (i & Hin & Hi).
  apply list_elem_of_In, elem_of_seqZ in Hin. apply Z.leb_le in Hi. lia.
Qed.

(** C9, amended.  [simulate_stream] does not validate the baseline, the
    total count or the degradation-start index: whatever they are, once
    the random generator is constructed it returns a result, and it has
    one reading per index of [1..total].  With a non-positive total, or a
    start index above the total, that result reports no deviation:
    nothing detected, deviation 0.0, alert NONE, no trigger.  The only
    exception it lets through is the one of the generator's
    construction. *)
Theorem simulate_stream_accepts_any_input (src : Np.RandomSource)
    (design_sbc : float) (deviation_start total : Z) (seed : option Z) :
  (forall rng : Np.Generator src,
     Np.default_rng src seed = Ok rng ->
     exists r,
       simulate_stream src design_sbc deviation_start total seed = Ok r /\
       length (readings r) = Z.to_nat total /\
       ((total <= 0)%Z \/ (total < deviation_start)%Z ->
        deviation_detected r = false /\
        deviation_percent r = 0%float /\
        alert_level r = "NONE" /\
        trigger_recal r = false)) /\
  (forall e,
     simulate_stream src design_sbc deviation_start total seed = Raise e ->
     Np.default_rng src seed = Raise e).
Proof.
  split.
  - intros rng Hrng.
    destruct (simulate_stream src design_sbc deviation_start total seed)
      as [r|e] eqn:Hr.
    2:{ unfold simulate_stream in Hr. rewrite Hrng in Hr. discriminate Hr. }
    exists r. split; [reflexivity|].
    destruct (simulate_stream_Ok _ _ _ _ _ _ Hr) as (rng' & Hrng' & Hres).
    simpl in Hres. destruct Hres as (Hread & Hdet & Hdev & Hal & Htr).
    split.
    + rewrite Hread, loop_readings. unfold range. rewrite length_seqZ. simpl. lia.
    + intros Hinv.
      assert (Hnone : deviation_detected r = false).
      { rewrite Hdet, loop_detected. simpl. rewrite orb_false_r.
        destruct Hinv as [H0|HS]; [|now apply range_misses_start].
        unfold range. now rewrite seqZ_nil by lia. }
      rewrite <- Hdet, Hnone in Hdev.
      change (py_round 0 2) with 0%float in Hdev.
      rewrite Htr, Hal, Hdev. repeat split; assumption.
  - intros e. unfold simulate_stream.
    destruct (Np.default_rng src seed) as [rng|e']; simpl; congruence.
Qed.

(** An instance of C9 (amended): a start index above the total. *)
Lemma simulate_stream_accepts_any_input_witness :
  exists r,
    simulate_stream (Scripted.source Scripted.script20) 180 25 20 None = Ok r /\
    length (readings r) = 20%nat /\
    deviation_detected r = false /\ deviation_percent r = 0%float /\
    alert_level r = "NONE" /\ trigger_recal r = false.
Proof.
  destruct (proj1 (simulate_stream_accepts_any_input
                     (Scripted.source Scripted.script20) 180%float 25%Z 20%Z None)
              Scripted.script20 eq_refl) as (r & Hr & Hlen & Hnone).
  exists r. split; [exact Hr|]. split; [exact Hlen|]. apply Hnone. right. lia.
Defined.

End ScenarioClaims.

(** * Further properties of the code *)

(** ** More of the order of binary64 values *)

Module FloatOrderMore.
Import FloatOrder.

Lemma lex_compare_Eq (e1 e2 : Z) (m1 m2 : positive) :
  match (e1 ?= e2)%Z with Lt => Lt | Gt => Gt | Eq => Pos.compare_cont Eq m1 m2 end = Eq ->
  e1 = e2 /\ m1 = m2.
Proof.
  change (Pos.compare_cont Eq m1 m2) with (m1 ?= m2)%positive.
  destruct (Z.compare_spec e1 e2); try discriminate.
  destruct (Pos.compare_spec m1 m2); try discriminate. auto.
Qed.

(** Two numbers that compare equal compare alike with any third. *)
Lemma SFcompare_Eq_r (x y z : spec_float) :
  SFcompare y z = Some Eq -> SFcompare x y = SFcompare x z.
Proof.
  destruct y as [sy|sy| |sy my ey], z as [sz|sz| |sz mz ez]; simpl;
    try destruct sy; try destruct sz; simpl; try discriminate;
    try (intros _; destruct x as [sx|sx| |sx mx ex]; reflexivity);
    intros H;
    assert (Hlex : match (ey ?= ez)%Z with
                   | Lt => Lt | Gt => Gt | Eq => Pos.compare_cont Eq my mz end = Eq)
      by (destruct (ey ?= ez)%Z; try discriminate;
          destruct (Pos.compare_cont Eq my mz); simpl in H; congruence);
    apply lex_compare_Eq in Hlex as [-> ->]; reflexivity.
Qed.

(** [x < y] and [y <= z] give [x < z]. *)
Lemma ltb_leb_trans (x y z : float) :
  (x <? y)%float = true -> (y <=? z)%float = true -> (x <? z)%float = true.
Proof.
  intros Hxy Hyz.
  destruct (y <? z)%float eqn:Hlt; [now apply (ltb_trans x y z)|].
  revert Hxy Hyz Hlt. rewrite !ltb_spec, leb_spec. unfold SFltb, SFleb.
  destruct (SFcompare (Prim2SF y) (Prim2SF z)) as [[]|] eqn:E; try discriminate.
  now rewrite (SFcompare_Eq_r _ _ _ E).
Qed.

(** [x >= y] written with [<=?], as Python's [>=] on floats. *)
Definition geb (x y : float) : bool := (y <=? x)%float.

End FloatOrderMore.

(** ** The Gemini client *)

Section ClientFacts.
Import Py GeminiClient.

(** X1.  [call_gemini] sends one request and never a second: its outcome
    is fixed by the client construction and the first request.  A first
    request that fails with a rate-limit error (429 in its text) ends the
    call with [NameError], because the retry branch looks up the unbound
    module global [time]; any other failure is re-raised as it is, and a
    success returns the stripped text (never [None]). *)
Theorem call_gemini_single_request :
  (forall (svc svc' : Service) (p : prompt) (json_mode fast : bool),
     new_client svc = new_client svc' ->
     generate_content svc p 0 = generate_content svc' p 0 ->
     call_gemini svc p json_mode fast = call_gemini svc' p json_mode fast) /\
  (forall (svc : Service) (p : prompt) (json_mode fast : bool) (e : exn),
     new_client svc = Ok tt ->
     generate_content svc p 0 = Raise e ->
     call_gemini svc p json_mode fast =
       if contains "429" (exn_msg e)
       then Raise (Exn "NameError" "name 'time' is not defined")
       else Raise e) /\
  (forall (svc : Service) (p : prompt) (json_mode fast : bool) (text : string),
     new_client svc = Ok tt ->
     generate_content svc p 0 = Ok text ->
     call_gemini svc p json_mode fast = Ok (Some (strip text))) /\
  (forall (svc : Service) (p : prompt) (json_mode fast : bool),
     call_gemini svc p json_mode fast <> Ok None).
Proof.
  assert (Hshape : forall (svc : Service) (p : prompt) (json_mode fast : bool),
            call_gemini svc p json_mode fast =
            match new_client svc with
            | Raise e => Raise e
            | Ok _ =>
                match generate_content svc p 0 with
                | Ok text => Ok (Some (strip text))
                | Raise e =>
                    if contains "429" (exn_msg e)
                    then Raise (Exn "NameError" "name 'time' is not defined")
                    else Raise e
                end
            end).
  { intros svc p json_mode fast. unfold call_gemini.
    destruct (new_client svc) as [[]|e0]; simpl; [|reflexivity].
    destruct (generate_content svc p 0) as [text|e]; [reflexivity|].
    rewrite andb_true_r. destruct (contains "429" (exn_msg e)); reflexivity. }
  repeat split.
  - intros svc svc' p json_mode fast Hc Hg. now rewrite !Hshape, Hc, Hg.
  - intros svc p json_mode fast e Hc Hg. now rewrite Hshape, Hc, Hg.
  - intros svc p json_mode fast text Hc Hg. now rewrite Hshape, Hc, Hg.
  - intros svc p json_mode fast. rewrite Hshape.
    destruct (new_client svc) as [[]|e0]; [|discriminate].
    destruct (generate_content svc p 0) as [text|e]; [discriminate|].
    destruct (contains "429" (exn_msg e)); discriminate.
Qed.

(** An instance of X1: the service would answer a second request, but
    the call ends with [NameError] after the first. *)
Lemma call_gemini_single_request_witness :
  generate_content ScriptedMore.service_rate_limited_once
    (Build_prompt 0 "" "" None "") 1 = Ok "{}" /\
  call_gemini ScriptedMore.service_rate_limited_once
    (Build_prompt 0 "" "" None "") true true =
    Raise (Exn "NameError" "name 'time' is not defined").
Proof.
  split; [reflexivity|].
  exact (proj1 (proj2 call_gemini_single_request)
           ScriptedMore.service_rate_limited_once (Build_prompt 0 "" "" None "")
           true true (Exn "ClientError" "429 RESOURCE_EXHAUSTED") eq_refl eq_refl).
Defined.

End ClientFacts.

(** ** Removing code fences *)

Module FenceFacts.
Import Py GeminiClient.

Lemma prefix_cons (a b : ascii) (s1 s2 : string) :
  String.prefix (String a s1) (String b s2) =
  if ascii_dec a b then String.prefix s1 s2 else false.
Proof. reflexivity. Qed.

Lemma prefix_nil_r (a : ascii) (s1 : string) :
  String.prefix (String a s1) "" = false.
Proof. reflexivity. Qed.

Lemma prefix_empty (s : string) : String.prefix "" s = true.
Proof. now destruct s. Qed.

(** A text that opens with the fence and the word [json] opens with the
    fence. *)
Lemma prefix_fence_json (s : string) :
  String.prefix "```json" s = true -> String.prefix "```" s = true.
Proof.
  intros H.
  destruct s as [|c1 [|c2 [|c3 s]]];
    repeat (rewrite prefix_cons in H || rewrite prefix_nil_r in H);
    repeat rewrite prefix_cons;
    repeat match goal with
           | H : context [ascii_dec ?a ?b] |- _ => destruct (ascii_dec a b)
           end;
    try discriminate H; clear H; now destruct s.
Qed.

(** Outside a match, a text that does not open with a fence keeps its
    first character. *)
Lemma sub_fences_no_fence (c : ascii) (rest : string) :
  String.prefix "```" (String c rest) = false ->
  sub_fences 0 (String c rest) = String c (sub_fences 0 rest).
Proof.
  intros H. cbn [sub_fences].
  destruct (String.prefix "```json" (String c rest)) eqn:Hj.
  - apply prefix_fence_json in Hj. congruence.
  - now rewrite H.
Qed.

(** Fewer than two leading backticks stay fewer than two. *)
Lemma sub_fences_no_double (rest : string) :
  String.prefix "``" rest = false -> String.prefix "``" (sub_fences 0 rest) = false.
Proof.
  destruct rest as [|c2 rest2]; [reflexivity|].
  rewrite prefix_cons. destruct (ascii_dec "`" c2) as [<-|Hc2].
  - intros H1.
    assert (H2 : String.prefix "``" rest2 = false).
    { destruct rest2 as [|c3 rest3]; [reflexivity|].
      rewrite prefix_cons in *. destruct (ascii_dec "`" c3); [|reflexivity].
      rewrite prefix_empty in H1. discriminate H1. }
    rewrite sub_fences_no_fence
      by (rewrite prefix_cons; now destruct (ascii_dec "`" "`")).
    rewrite prefix_cons. destruct (ascii_dec "`" "`"); [|reflexivity].
    destruct rest2 as [|c3 rest3]; [reflexivity|].
    rewrite prefix_cons in H1. destruct (ascii_dec "`" c3) as [<-|Hc3].
    { rewrite prefix_empty in H1. discriminate H1. }
    rewrite sub_fences_no_fence
      by (rewrite prefix_cons; now destruct (ascii_dec "`" c3)).
    rewrite prefix_cons. now destruct (ascii_dec "`" c3).
  - intros _.
    rewrite sub_fences_no_fence
      by (rewrite prefix_cons; now destruct (ascii_dec "`" c2)).
    rewrite prefix_cons. now destruct (ascii_dec "`" c2).
Qed.

Lemma contains_cons (needle : string) (c : ascii) (s : string) :
  contains needle (String c s) = String.prefix needle (String c s) || contains needle s.
Proof. reflexivity. Qed.

Lemma sub_fences_clean (s : string) (skip : nat) :
  contains "```" (sub_fences skip s) = false.
Proof.
  revert skip. induction s as [|c rest IH]; intros skip; [now destruct skip|].
  destruct skip as [|k]; [|apply IH].
  cbn [sub_fences].
  destruct (String.prefix "```json" (String c rest)); [apply IH|].
  destruct (String.prefix "```" (String c rest)) eqn:Hf; [apply IH|].
  rewrite contains_cons, IH, orb_false_r.
  rewrite prefix_cons in *. destruct (ascii_dec "`" c); [|reflexivity].
  now apply sub_fences_no_double.
Qed.

Lemma sub_fences_fence_free (s : string) :
  contains "```" s = false -> sub_fences 0 s = s.
Proof.
  induction s as [|c rest IH]; [reflexivity|].
  rewrite contains_cons. intros [Hp Hc]%orb_false_elim.
  rewrite (sub_fences_no_fence _ _ Hp). now rewrite IH.
Qed.

End FenceFacts.

Section FenceClaims.
Import Py GeminiClient FenceFacts.

(** X2.  The fence removal of [call_gemini_json] leaves no code fence in
    the text, returns a text without fences as it is, and is therefore
    idempotent. *)
Theorem sub_fences_removes_every_fence :
  (forall raw : string, contains "```" (sub_fences 0 raw) = false) /\
  (forall raw : string, contains "```" raw = false -> sub_fences 0 raw = raw) /\
  (forall raw : string, sub_fences 0 (sub_fences 0 raw) = sub_fences 0 raw).
Proof.
  split; [|split].
  - intros raw. apply sub_fences_clean.
  - apply sub_fences_fence_free.
  - intros raw. apply sub_fences_fence_free, sub_fences_clean.
Qed.

(** An instance of X2: backticks that only form a fence once the word
    [json] between them is taken as part of the first fence. *)
Lemma sub_fences_removes_every_fence_witness :
  sub_fences 0 "``` {} ```json``x" = " {} ``x" /\
  contains "```" " {} ``x" = false /\
  sub_fences 0 " {} ``x" = " {} ``x".
Proof.
  split; [reflexivity|]. split; [reflexivity|].
  apply (proj1 (proj2 sub_fences_removes_every_fence)). reflexivity.
Defined.

End FenceClaims.

(** ** The stored readings *)

Module ReadingFacts.
Import Py SensorEngine SensorFacts.

Section Simulate.

Variable src : Np.RandomSource.

Lemma loop_body_last design_sbc deviation_start st i :
  exists x,
    ls_readings src (loop_body src design_sbc deviation_start st i) =
    ls_readings src st ++
    [{| index := i; sbc_kNm2 := py_round x 1;
        is_anomaly := (deviation_start <=? i)%Z; timestamp := "" |}].
Proof.
  unfold loop_body.
  destruct (deviation_start <=? i)%Z;
    destruct (Np.normal src _ _ _) as [x rng]; exists x; reflexivity.
Qed.

(** The loop numbers the readings by the indexes it runs over and flags
    each one by comparing its index with the degradation start. *)
Lemma loop_indexes design_sbc deviation_start (l : list Z) st :
  let st' := fold_left (loop_body src design_sbc deviation_start) l st in
  map index (ls_readings src st') = map index (ls_readings src st) ++ l /\
  map is_anomaly (ls_readings src st') =
    map is_anomaly (ls_readings src st) ++ map (fun i => (deviation_start <=? i)%Z) l.
Proof.
  revert st. induction l as [|i l IH]; intros st; simpl.
  - now rewrite !app_nil_r.
  - destruct (IH (loop_body src design_sbc deviation_start st i)) as [Hi Ha].
    destruct (loop_body_last design_sbc deviation_start st i) as [x Hx].
    simpl in Hi, Ha. rewrite Hi, Ha, Hx, !map_app. simpl.
    now rewrite <- !app_assoc.
Qed.

End Simulate.

Lemma enumerate_from_indexes {A} (k : Z) (l : list A) :
  map fst (enumerate_from k l) = seqZ k (Z.of_nat (length l)).
Proof.
  revert k. induction l as [|x l IH]; intros k; [reflexivity|].
  cbn [enumerate_from map fst length]. rewrite IH.
  rewrite (seqZ_cons k) by lia. f_equal. f_equal; lia.
Qed.

End ReadingFacts.

Section ReadingClaims.
Import Py SensorEngine SensorFacts ReadingFacts.

(** X3.  Every result of [simulate_stream] holds one reading per index of
    [1..total], numbered in order, and a reading is flagged anomalous
    exactly when its index is at or after the degradation start.  The
    result reports a detected deviation exactly when it holds a flagged
    reading, that is when [1 <= total] and [deviation_start <= total]:
    the sampled values play no part in it. *)
Theorem simulated_readings_numbered (src : Np.RandomSource) (design_sbc : float)
    (deviation_start total : Z) (seed : option Z) (r : SensorStreamResult) :
  simulate_stream src design_sbc deviation_start total seed = Ok r ->
  map index (readings r) = seqZ 1 total /\
  map is_anomaly (readings r) =
    map (fun i => (deviation_start <=? i)%Z) (seqZ 1 total) /\
  (deviation_detected r = true <->
   exists rd, In rd (readings r) /\ is_anomaly rd = true) /\
  (deviation_detected r = true <-> (1 <= total /\ deviation_start <= total)%Z).
Proof.
  intros Hr.
  destruct (simulate_stream_Ok _ _ _ _ _ _ Hr) as (rng & _ & Hres).
  simpl in Hres. destruct Hres as (Hread & Hdet & _).
  destruct (loop_indexes src design_sbc deviation_start (range 1 (total + 1))
              {| ls_rng := rng; ls_readings := []; ls_detected := false |})
    as [Hi Ha].
  simpl in Hi, Ha. rewrite <- Hread in Hi, Ha.
  unfold range in Hi, Ha. replace (total + 1 - 1)%Z with total in Hi, Ha by lia.
  assert (Hflag : deviation_detected r =
                  existsb (fun i => (deviation_start <=? i)%Z) (seqZ 1 total)).
  { rewrite Hdet, loop_detected. simpl. rewrite orb_false_r.
    unfold range. now replace (total + 1 - 1)%Z with total by lia. }
  split; [exact Hi|]. split; [exact Ha|]. split.
  - rewrite Hflag, existsb_exists. split.
    + intros (i & Hin & Hle).
      assert (Hin' : In true (map is_anomaly (readings r))).
      { rewrite Ha, <- Hle. now apply in_map. }
      apply in_map_iff in Hin' as (rd & Hrd & Hin'). now exists rd.
    + intros (rd & Hin & Hrd).
      assert (Hin' : In true (map (fun i => (deviation_start <=? i)%Z) (seqZ 1 total))).
      { rewrite <- Ha, <- Hrd. now apply in_map. }
      apply in_map_iff in Hin' as (i & Hle & Hin'). now exists i.
  - rewrite Hflag, existsb_exists. split.
    + intros (i & Hin & Hle). apply list_elem_of_In, elem_of_seqZ in Hin.
      apply Z.leb_le in Hle. lia.
    + intros [H1 HS]. exists total. split.
      * apply list_elem_of_In, elem_of_seqZ. lia.
      * apply Z.leb_le. lia.
Qed.

(** An instance of X3: the default stream of 20 readings that degrades
    from the 12th. *)
Lemma simulated_readings_numbered_witness :
  exists r,
    simulate_stream (Scripted.source Scripted.script20) 180
      Config.SENSOR_DEVIATION_START Config.SENSOR_TOTAL_READINGS None = Ok r /\
    map index (readings r) = seqZ 1 20 /\
    deviation_detected r = true.
Proof.
  destruct (simulate_stream (Scripted.source Scripted.script20) 180
              Config.SENSOR_DEVIATION_START Config.SENSOR_TOTAL_READINGS None)
    as [r|e] eqn:E; [|vm_compute in E; discriminate E].
  exists r. split; [reflexivity|].
  destruct (simulated_readings_numbered _ _ _ _ _ _ E) as (Hi & _ & _ & Hd).
  split; [exact Hi|]. apply Hd. unfold Config.SENSOR_DEVIATION_START,
    Config.SENSOR_TOTAL_READINGS. lia.
Defined.

(** X4.  [ingest_real_readings] stores the raw values in order, numbered
    from 1, and flags none of them as anomalous, also when fewer than 3
    are supplied. *)
Theorem ingested_readings_numbered (raw_values : list float) (design_sbc : float) :
  let r := ingest_real_readings raw_values design_sbc in
  map sbc_kNm2 (readings r) = raw_values /\
  map index (readings r) = seqZ 1 (Z.of_nat (length raw_values)) /\
  Forall (fun rd => is_anomaly rd = false) (readings r).
Proof.
  intros r. subst r. split; [apply ingest_stored_values|].
  assert (Hread : readings (ingest_real_readings raw_values design_sbc) =
            map (fun '(i, v) =>
                   {| index := i + 1; sbc_kNm2 := v; is_anomaly := false;
                      timestamp := "" |}) (enumerate_from 0 raw_values)).
  { unfold ingest_real_readings. now destruct (length raw_values <? 3)%nat. }
  rewrite Hread. split.
  - rewrite map_map.
    rewrite (map_ext _ (fun iv => Z.add 1 (fst iv))) by (intros [i v]; simpl; lia).
    rewrite <- (map_map fst (Z.add 1)), enumerate_from_indexes.
    change (map (Z.add 1) ?l) with (Z.add 1 <$> l).
    now rewrite fmap_add_seqZ.
  - apply Forall_map, Forall_forall. now intros [i v] _.
Qed.

End ReadingClaims.

(** ** The policy, seen from its callers *)

Module PolicyFacts.
Import Py RecalibrationEngine FloatOrder FloatOrderMore RecalibrationFacts.

(** The base action is one of three, selected by two comparisons. *)
Lemma base_action_cases (d : float) :
  ((20 <? d)%float = true /\
   determine_base_action d =
     {| ba_severity := "CRITICAL"; ba_add_depth_mm := 600; ba_add_piles := 4;
        ba_new_risk_band := "LOW"; ba_cost_delta_pct := 0.18;
        ba_action := "Increase founding depth by 600mm. Add 4 bored cast-in-situ piles per column. Perform additional plate load test per IS 1888." |}) \/
  ((20 <? d)%float = false /\ (10 <? d)%float = true /\
   determine_base_action d =
     {| ba_severity := "MODERATE"; ba_add_depth_mm := 350; ba_add_piles := 2;
        ba_new_risk_band := "MODERATE"; ba_cost_delta_pct := 0.09;
        ba_action := "Increase founding depth by 350mm. Add 2 piles for load redistribution. Recheck SBC with dynamic cone penetration test." |}) \/
  ((20 <? d)%float = false /\ (10 <? d)%float = false /\
   determine_base_action d =
     {| ba_severity := "MINOR"; ba_add_depth_mm := 150; ba_add_piles := 0;
        ba_new_risk_band := "LOW-MODERATE"; ba_cost_delta_pct := 0.03;
        ba_action := "Increase reinforcement grade from Fe415 to Fe500. Add 150mm to footing depth as precaution." |}).
Proof.
  unfold determine_base_action.
  change Config.DEVIATION_CRITICAL with 20%float.
  change Config.DEVIATION_MODERATE with 10%float.
  destruct (20 <? d)%float; [left; split; reflexivity|].
  destruct (10 <? d)%float; [right; left|right; right]; repeat split.
Qed.

(** The fields of a returned patch, read back from the base action. *)
Lemma generate_patch_fields json_loads svc d ctx variant budget p :
  generate_patch json_loads svc d ctx variant budget = Ok p ->
  let ba := determine_base_action d in
  severity p = ba_severity ba /\
  structural_action p = ba_action ba /\
  add_depth_mm p = ba_add_depth_mm ba /\
  add_piles p = ba_add_piles ba /\
  requires_approval p = bool_decide (ba_severity ba ∈ ["CRITICAL"; "MODERATE"]).
Proof.
  intros Hp ba.
  destruct (generate_patch_returns json_loads svc d ctx variant budget)
    as (p' & Hp' & _ & Hs & Ha & Hd & Hpi & _ & _ & Hr).
  rewrite Hp in Hp'. injection Hp' as <-. auto.
Qed.

End PolicyFacts.

Section PolicyCallerClaims.
Import Py SensorEngine RecalibrationEngine FloatOrder FloatOrderMore SensorFacts.
Import RecalibrationFacts PolicyFacts.

Ltac corr_cases :=
  repeat split; intros;
  try match goal with H : _ \/ _ |- _ => destruct H end;
  try congruence; try discriminate; try reflexivity.

(** X5.  The policy's tiers line up with the detector's alert levels on
    every deviation: a patch is CRITICAL exactly when the alert level is
    CRITICAL, MODERATE exactly when it is WARNING, and MINOR exactly when
    it is WATCH or NONE; approval is required exactly above 10.  So when
    a caller builds the patch from a triggering stream result, as the
    pipeline does, WATCH gives MINOR, WARNING gives MODERATE and CRITICAL
    gives CRITICAL. *)
Theorem patch_severity_follows_alert :
  (forall json_loads svc d project_context current_variant budget_cr p,
     generate_patch json_loads svc d project_context current_variant budget_cr = Ok p ->
     (severity p = "CRITICAL" <-> alert_level_of d = "CRITICAL") /\
     (severity p = "MODERATE" <-> alert_level_of d = "WARNING") /\
     (severity p = "MINOR" <->
        alert_level_of d = "WATCH" \/ alert_level_of d = "NONE") /\
     (requires_approval p = true <-> (10 <? d)%float = true)) /\
  (forall json_loads svc project_context current_variant budget_cr p
          (r : SensorStreamResult),
     ((exists raw_values design_sbc,
         r = ingest_real_readings raw_values design_sbc) \/
      (exists src design_sbc deviation_start total seed,
         simulate_stream src design_sbc deviation_start total seed = Ok r)) ->
     trigger_recal r = true ->
     generate_patch json_loads svc (SensorEngine.deviation_percent r) project_context
       current_variant budget_cr = Ok p ->
     (alert_level r = "WATCH" /\ severity p = "MINOR") \/
     (alert_level r = "WARNING" /\ severity p = "MODERATE") \/
     (alert_level r = "CRITICAL" /\ severity p = "CRITICAL")).
Proof.
  assert (Hmain : forall json_loads svc d project_context current_variant budget_cr p,
            generate_patch json_loads svc d project_context current_variant
              budget_cr = Ok p ->
            (severity p = "CRITICAL" <-> alert_level_of d = "CRITICAL") /\
            (severity p = "MODERATE" <-> alert_level_of d = "WARNING") /\
            (severity p = "MINOR" <->
               alert_level_of d = "WATCH" \/ alert_level_of d = "NONE") /\
            (requires_approval p = true <-> (10 <? d)%float = true)).
  { intros json_loads svc d project_context current_variant budget_cr p Hp.
    destruct (generate_patch_fields _ _ _ _ _ _ _ Hp) as (Hs & _ & _ & _ & Hr).
    rewrite Hs, Hr. unfold alert_level_of.
    destruct (base_action_cases d) as [[H20 ->]|[(H20 & H10 & ->)|(H20 & H10 & ->)]];
      rewrite H20; cbn [ba_severity].
    - pose proof (ltb_trans 10 20 d eq_refl H20) as H10. corr_cases.
    - rewrite H10. corr_cases.
    - rewrite H10. destruct (5 <? d)%float; corr_cases; auto. }
  split; [exact Hmain|].
  intros json_loads svc project_context current_variant budget_cr p r Hfrom Hon Hp.
  assert (Hshape : alert_level r = alert_level_of (SensorEngine.deviation_percent r) /\
                   trigger_recal r = (5.0 <? SensorEngine.deviation_percent r)%float).
  { destruct Hfrom as [(raw_values & design_sbc & ->)
                      |(src & design_sbc & deviation_start & total & seed & Hr)].
    - unfold ingest_real_readings.
      destruct (length raw_values <? 3)%nat; split; reflexivity.
    - destruct (simulate_stream_Ok _ _ _ _ _ _ Hr) as (rng & _ & Hres).
      simpl in Hres. tauto. }
  destruct Hshape as [Hal Htr].
  destruct (Hmain _ _ _ _ _ _ _ Hp) as (Hc & Hm & Hmin & _).
  rewrite Htr in Hon. rewrite Hal. unfold alert_level_of in *.
  change (5.0)%float with 5%float in Hon. rewrite Hon in *.
  destruct (20 <? SensorEngine.deviation_percent r)%float.
  - right; right. split; [reflexivity|]. now apply Hc.
  - destruct (10 <? SensorEngine.deviation_percent r)%float.
    + right; left. split; [reflexivity|]. now apply Hm.
    + left. split; [reflexivity|]. apply Hmin. now left.
Qed.

(** An instance of X5: the raw readings 180, 150, 148, 151, 149 trigger
    with alert WARNING, and the patch for their deviation is MODERATE. *)
Lemma patch_severity_follows_alert_witness :
  let r := ingest_real_readings [180; 150; 148; 151; 149]%float 180%float in
  trigger_recal r = true /\
  exists p,
    generate_patch Scripted.json_loads_braces Scripted.service_down
      (SensorEngine.deviation_percent r) "" None 10%float = Ok p /\
    alert_level r = "WARNING" /\ severity p = "MODERATE".
Proof.
  intros r.
  assert (Hon : trigger_recal r = true) by (vm_compute; reflexivity).
  split; [exact Hon|].
  destruct (generate_patch Scripted.json_loads_braces Scripted.service_down
              (SensorEngine.deviation_percent r) "" None 10%float)
    as [p|e] eqn:E; [|vm_compute in E; discriminate E].
  exists p. split; [reflexivity|].
  destruct (proj2 patch_severity_follows_alert _ _ _ _ _ p r
              (or_introl (ex_intro _ _ (ex_intro _ _ eq_refl))) Hon E)
    as [[Ha _]|[H|[Ha _]]]; [vm_compute in Ha; discriminate Ha|exact H
                             |vm_compute in Ha; discriminate Ha].
Defined.

End PolicyCallerClaims.

Section PolicyShapeClaims.
Import Py RecalibrationEngine FloatOrder FloatOrderMore RecalibrationFacts PolicyFacts.

(** X6.  The correction never shrinks as the deviation grows: for
    [d1 <= d2], whatever the budgets and the enrichment, the patch for
    [d2] adds at least the depth and the piles of the patch for [d1], and
    requires approval if the patch for [d1] does. *)
Theorem patch_grows_with_deviation json_loads1 svc1 ctx1 variant1 budget1
    json_loads2 svc2 ctx2 variant2 budget2 (d1 d2 : float)
    (p1 p2 : RecalibrationPatch) :
  (d1 <=? d2)%float = true ->
  generate_patch json_loads1 svc1 d1 ctx1 variant1 budget1 = Ok p1 ->
  generate_patch json_loads2 svc2 d2 ctx2 variant2 budget2 = Ok p2 ->
  (add_depth_mm p1 <= add_depth_mm p2)%Z /\
  (add_piles p1 <= add_piles p2)%Z /\
  (requires_approval p1 = true -> requires_approval p2 = true).
Proof.
  intros Hle Hp1 Hp2.
  destruct (generate_patch_fields _ _ _ _ _ _ _ Hp1) as (_ & _ & -> & -> & ->).
  destruct (generate_patch_fields _ _ _ _ _ _ _ Hp2) as (_ & _ & -> & -> & ->).
  assert (H20 : (20 <? d1)%float = true -> (20 <? d2)%float = true)
    by (intros H; now apply (ltb_leb_trans 20 d1 d2)).
  assert (H10 : (10 <? d1)%float = true -> (10 <? d2)%float = true)
    by (intros H; now apply (ltb_leb_trans 10 d1 d2)).
  assert (H21 : (20 <? d1)%float = true -> (10 <? d2)%float = true)
    by (intros H; apply H10; now apply (ltb_trans 10 20 d1)).
  destruct (base_action_cases d1) as [[A1 ->]|[(A1 & B1 & ->)|(A1 & B1 & ->)]];
    destruct (base_action_cases d2) as [[A2 ->]|[(A2 & B2 & ->)|(A2 & B2 & ->)]];
    cbn [ba_add_depth_mm ba_add_piles ba_severity];
    try (pose proof (H20 A1) as Hx; congruence);
    try (pose proof (H21 A1) as Hx; congruence);
    try (pose proof (H10 B1) as Hx; congruence);
    (split; [lia|split; [lia|]]); intros Hreq;
    vm_compute in Hreq |- *; congruence.
Qed.

(** An instance of X6: deviations 8.5 and 16.89. *)
Lemma patch_grows_with_deviation_witness :
  exists p1 p2,
    generate_patch Scripted.json_loads_braces Scripted.service_down
      8.5%float "" None 10%float = Ok p1 /\
    generate_patch Scripted.json_loads_braces Scripted.service_empty_object
      16.89%float "" None 12.5%float = Ok p2 /\
    (add_depth_mm p1 <= add_depth_mm p2)%Z /\
    (add_piles p1 <= add_piles p2)%Z.
Proof.
  destruct (generate_patch Scripted.json_loads_braces Scripted.service_down
              8.5%float "" None 10%float) as [p1|e] eqn:E1;
    [|vm_compute in E1; discriminate E1].
  destruct (generate_patch Scripted.json_loads_braces Scripted.service_empty_object
              16.89%float "" None 12.5%float) as [p2|e] eqn:E2;
    [|vm_compute in E2; discriminate E2].
  exists p1, p2. split; [reflexivity|]. split; [reflexivity|].
  destruct (patch_grows_with_deviation _ _ _ _ _ _ _ _ _ _ 8.5%float 16.89%float
              p1 p2 eq_refl E1 E2) as (Hd & Hp & _).
  split; assumption.
Defined.

(** X7.  The action text of every patch names its own depth figure as
    "<add_depth_mm>mm".  When piles are added it also names their number
    as "Add <add_piles> "; when none are added (the MINOR tier) the text
    does not mention piles at all. *)
Theorem action_text_names_figures json_loads svc d project_context current_variant
    budget_cr (p : RecalibrationPatch) :
  generate_patch json_loads svc d project_context current_variant budget_cr = Ok p ->
  contains (pretty (add_depth_mm p) +:+ "mm") (structural_action p) = true /\
  (add_piles p <> 0%Z ->
   contains ("Add " +:+ pretty (add_piles p) +:+ " ") (structural_action p) = true) /\
  (add_piles p = 0%Z -> contains "pile" (structural_action p) = false).
Proof.
  intros Hp.
  destruct (generate_patch_fields _ _ _ _ _ _ _ Hp) as (_ & -> & -> & -> & _).
  destruct (base_action_cases d) as [[_ ->]|[(_ & _ & ->)|(_ & _ & ->)]];
    cbn [ba_add_depth_mm ba_add_piles ba_action];
    (split; [vm_compute; reflexivity|split; intros H]);
    try (vm_compute; reflexivity); try discriminate H; now contradict H.
Qed.

(** An instance of X7: a CRITICAL patch. *)
Lemma action_text_names_figures_witness :
  exists p,
    generate_patch Scripted.json_loads_braces Scripted.service_down
      25%float "" None 10%float = Ok p /\
    contains "600mm" (structural_action p) = true /\
    contains "Add 4 " (structural_action p) = true.
Proof.
  destruct (generate_patch Scripted.json_loads_braces Scripted.service_down
              25%float "" None 10%float) as [p|e] eqn:E;
    [|vm_compute in E; discriminate E].
  exists p. split; [reflexivity|].
  destruct (action_text_names_figures _ _ _ _ _ _ _ E) as (Hd & Hp & _).
  assert (H600 : add_depth_mm p = 600%Z)
    by (vm_compute in E; injection E as <-; reflexivity).
  assert (H4 : add_piles p = 4%Z)
    by (vm_compute in E; injection E as <-; reflexivity).
  rewrite H600 in Hd. rewrite H4 in Hp. split; [exact Hd|]. apply Hp. discriminate.
Defined.

End PolicyShapeClaims.

(** ** Zeros of binary64 arithmetic *)

Module FloatZero.
Import FloatOrder.

Lemma eqb_zero (x : float) :
  (x =? 0)%float = true <-> exists s, Prim2SF x = S754_zero s.
Proof.
  rewrite FloatAxioms.eqb_spec. unfold SFeqb.
  change (Prim2SF 0) with (S754_zero false).
  destruct (Prim2SF x) as [s|s| |s m e]; simpl; split;
    try (intros _; now exists s); try reflexivity;
    try (destruct s; discriminate); try discriminate;
    intros [s' H]; discriminate H.
Qed.

Lemma is_finite_cases (x : float) :
  is_finite x = true ->
  (exists s, Prim2SF x = S754_zero s) \/ (exists s m e, Prim2SF x = S754_finite s m e).
Proof.
  unfold is_finite, is_nan, is_infinity.
  rewrite !FloatAxioms.eqb_spec, abs_spec. unfold SFeqb.
  change (Prim2SF infinity) with (S754_infinity false).
  destruct (Prim2SF x) as [s|s| |s m e]; simpl; try discriminate.
  - intros _. left. now exists s.
  - rewrite orb_true_r. discriminate.
  - intros _. right. now exists s, m, e.
Qed.

(** Zero times a finite number is a zero. *)
Lemma zero_mul_finite (x y : float) :
  (x =? 0)%float = true -> is_finite y = true -> (x * y =? 0)%float = true.
Proof.
  intros [s Hx]%eqb_zero Hy. apply eqb_zero. rewrite mul_spec, Hx.
  destruct (is_finite_cases y Hy) as [[s' ->]|(s' & m & e & ->)];
    eexists; reflexivity.
Qed.

(** A sum of two zeros is a zero. *)
Lemma zero_add_zero (x y : float) :
  (x =? 0)%float = true -> (y =? 0)%float = true -> (x + y =? 0)%float = true.
Proof.
  intros [s Hx]%eqb_zero [s' Hy]%eqb_zero. apply eqb_zero.
  rewrite add_spec, Hx, Hy. destruct s, s'; eexists; reflexivity.
Qed.

(** A NaN is not [<=] anything. *)
Lemma nan_leb_false (x y : float) : is_nan x = true -> (x <=? y)%float = false.
Proof.
  intros Hx. destruct (x <=? y)%float eqn:E; [|reflexivity].
  apply leb_not_nan in E as [E _]. congruence.
Qed.

End FloatZero.

(** ** Substrings *)

Module StringFacts.
Import Py FenceFacts.

Lemma prefix_refl (s : string) : String.prefix s s = true.
Proof.
  induction s as [|c s IH]; [reflexivity|].
  rewrite prefix_cons. now destruct (ascii_dec c c).
Qed.

Lemma contains_prefix (needle s : string) :
  String.prefix needle s = true -> contains needle s = true.
Proof. intros H. destruct s; cbn [contains]; rewrite H; reflexivity. Qed.

Lemma contains_append_r (needle a b : string) :
  contains needle b = true -> contains needle (a +:+ b) = true.
Proof.
  intros H. induction a as [|c a IH]; [exact H|].
  change (String c a +:+ b) with (String c (a +:+ b)).
  rewrite contains_cons, IH. apply orb_true_r.
Qed.

Lemma contains_tail (needle a : string) : contains needle (a +:+ needle) = true.
Proof. apply contains_append_r, contains_prefix, prefix_refl. Qed.

End StringFacts.

(** ** Project validation *)

Section ProjectClaims.
Import Py PyMore Project FloatOrder FloatZero StringFacts.

(** X8.  [validate] accepts a project exactly when its load is not
    [<= 0], its budget is not [<= 0] and its seismic zone is one of II,
    III, IV, V.  Otherwise it raises one [ValueError] whose message names
    every violated rule, not only the first.  A NaN load or budget is not
    [<= 0], so it is not a violation. *)
Theorem validate_reports_every_violation (p : ProjectInput) :
  let bad_load := (load_kN p <=? 0)%float in
  let bad_budget := (budget_cr p <=? 0)%float in
  let zone_ok := bool_decide (seismic_zone p ∈ ["II"; "III"; "IV"; "V"]) in
  (validate p = Ok true <->
   bad_load = false /\ bad_budget = false /\ zone_ok = true) /\
  (bad_load = true \/ bad_budget = true \/ zone_ok = false ->
   exists msg,
     validate p = Raise (Exn "ValueError" msg) /\
     String.prefix "ProjectInput validation failed: " msg = true /\
     (bad_load = true -> contains "load_kN must be positive" msg = true) /\
     (bad_budget = true -> contains "budget_cr must be positive" msg = true) /\
     (zone_ok = false ->
      contains ("seismic_zone must be II/III/IV/V, got " +:+ seismic_zone p) msg
        = true)) /\
  (is_nan (load_kN p) = true -> bad_load = false) /\
  (is_nan (budget_cr p) = true -> bad_budget = false).
Proof.
  intros bad_load bad_budget zone_ok.
  assert (Hval : validate p =
            let errors :=
              (if bad_load then ["load_kN must be positive"] else []) ++
              (if bad_budget then ["budget_cr must be positive"] else []) ++
              (if zone_ok then []
               else ["seismic_zone must be II/III/IV/V, got " +:+ seismic_zone p]) in
            if truthy_list errors
            then Raise (Exn "ValueError"
                          ("ProjectInput validation failed: " +:+
                           String.concat "; " errors))
            else Ok true).
  { unfold validate. fold bad_load bad_budget zone_ok.
    destruct bad_load, bad_budget, zone_ok; reflexivity. }
  split; [|split; [|split]].
  - rewrite Hval. destruct bad_load, bad_budget, zone_ok; simpl;
      split; try discriminate; try tauto; intros (? & ? & ?); discriminate.
  - intros Hbad. rewrite Hval.
    set (zmsg := "seismic_zone must be II/III/IV/V, got " +:+ seismic_zone p).
    destruct bad_load, bad_budget, zone_ok; cbv zeta;
      cbn [app truthy_list String.concat];
      try (destruct Hbad as [H|[H|H]]; discriminate H);
      eexists; (split; [reflexivity|]); (split; [reflexivity|]);
      repeat split; intros H; try discriminate H;
      try (vm_compute; reflexivity).
    + apply (contains_append_r _
               "ProjectInput validation failed: load_kN must be positive; budget_cr must be positive; ").
      apply contains_prefix, prefix_refl.
    + apply (contains_append_r _
               "ProjectInput validation failed: load_kN must be positive; ").
      apply contains_prefix, prefix_refl.
    + apply (contains_append_r _
               "ProjectInput validation failed: budget_cr must be positive; ").
      apply contains_prefix, prefix_refl.
    + apply (contains_append_r _ "ProjectInput validation failed: ").
      apply contains_prefix, prefix_refl.
  - apply nan_leb_false.
  - apply nan_leb_false.
Qed.

(** An instance of X8: a project with a negative load, a zero budget and
    an unknown zone is refused with all three rules in one message, and
    the demo project is accepted. *)
Lemma validate_reports_every_violation_witness :
  validate Examples.demo_project = Ok true /\
  exists msg,
    validate Examples.invalid_project = Raise (Exn "ValueError" msg) /\
    contains "load_kN must be positive" msg = true /\
    contains "budget_cr must be positive" msg = true /\
    contains "seismic_zone must be II/III/IV/V, got VI" msg = true.
Proof.
  split.
  - apply (proj1 (validate_reports_every_violation Examples.demo_project)).
    repeat split; vm_compute; reflexivity.
  - destruct (proj1 (proj2 (validate_reports_every_violation Examples.invalid_project)))
      as (msg & Hmsg & _ & Hl & Hb & Hz); [left; vm_compute; reflexivity|].
    exists msg. split; [exact Hmsg|]. split; [|split].
    + apply Hl. vm_compute. reflexivity.
    + apply Hb. vm_compute. reflexivity.
    + apply Hz. vm_compute. reflexivity.
Defined.

End ProjectClaims.

(** ** The business impact model *)

Section ImpactClaims.
Import Py PyMore ImpactModel FloatZero.

(** X9.  [calculate] fails on a zero budget: with a budget of 0.0 (or
    -0.0) and a risk factor [1 + failure_prob / 100] that is finite, the
    total saving is zero and the payback division raises
    [ZeroDivisionError].  No other exception can leave [calculate]. *)
Theorem calculate_zero_budget_raises (failure_prob budget_cr : float) :
  ((budget_cr =? 0)%float = true ->
   is_finite (1 + failure_prob / 100)%float = true ->
   calculate failure_prob budget_cr =
     Raise (Exn "ZeroDivisionError" "float division by zero")) /\
  (forall e, calculate failure_prob budget_cr = Raise e ->
             e = Exn "ZeroDivisionError" "float division by zero").
Proof.
  unfold calculate, float_div.
  change (100 =? 0)%float with false.
  change (NEXUS_DEPLOY_COST_CR =? 0)%float with false.
  cbn [bind]. split.
  - intros Hb Hf.
    set (total := (_ + _ + _)%float).
    assert (Ht : (total =? 0)%float = true).
    { subst total. repeat apply zero_add_zero; repeat apply zero_mul_finite;
        try exact Hb; try exact Hf; reflexivity. }
    now rewrite Ht.
  - intros e. destruct (_ =? 0)%float; cbn [bind]; congruence.
Qed.

(** An instance of X9: a zero budget with a failure probability of
    3.5 percent. *)
Lemma calculate_zero_budget_raises_witness :
  calculate 3.5%float 0%float =
    Raise (Exn "ZeroDivisionError" "float division by zero").
Proof.
  apply (proj1 (calculate_zero_budget_raises 3.5%float 0%float)); reflexivity.
Defined.

End ImpactClaims.

(** ** The generative design module *)

Module DesignFacts.
Import Py PyMore PyData Project DesignModule RecalibrationFacts.

(** A variant that carries the required keys. *)
Definition keyed (v : pyval) : Prop :=
  exists d, v = PDict d /\ required ⊆ dom d.

Lemma is_codes_concrete :
  RecalibrationEngine.subscript Config.IS_CODES "concrete" = Ok "IS 456:2000".
Proof. vm_compute. reflexivity. Qed.

(** The seismic factor is one of the four of the table (the default is
    one of them). *)
Lemma seismic_factor_cases (project : ProjectInput) :
  seismic_factor project = 1.0%float \/ seismic_factor project = 1.1%float \/
  seismic_factor project = 1.2%float \/ seismic_factor project = 1.35%float.
Proof.
  unfold seismic_factor, seismic_factors.
  rewrite !lookup_insert, lookup_empty.
  repeat case_decide; auto.
Qed.

Lemma soil_factor_cases (project : ProjectInput) :
  soil_factor project = 1.3%float \/ soil_factor project = 1.1%float \/
  soil_factor project = 1.0%float.
Proof.
  unfold soil_factor. destruct (contains "black" _); auto.
  destruct (contains "sand" _); auto.
Qed.

Section WithServices.

Variable json_loads : string -> pyresult pyval.
Variable svc : GeminiClient.Service.
Variable float_str : float -> string.
Variable container_str : pyval -> string.
Variable set_str : gset string -> string.

(** A list that passes the validation loop holds keyed dicts only. *)
Lemma check_variants_keyed (items : list pyval) :
  check_variants float_str container_str set_str items = Ok tt <->
  Forall keyed items.
Proof.
  induction items as [|v rest IH]; [split; [constructor|reflexivity]|].
  cbn [check_variants]. split.
  - destruct v; try discriminate. cbn [key_set bind].
    case_bool_decide as Hmiss; [discriminate|].
    intros Hrest. constructor; [|now apply IH].
    eexists. split; [reflexivity|].
    apply empty_difference_subseteq_L.
    destruct (decide (required ∖ dom d = ∅)) as [He|Hne]; [exact He|].
    now contradict Hmiss.
  - intros Hall. inversion Hall as [|? ? (d & -> & Hsub) Hrest']; subst.
    cbn [key_set bind].
    rewrite bool_decide_eq_false_2.
    + now apply IH.
    + intros Hne. apply Hne. now apply subseteq_empty_difference_L.
Qed.

End WithServices.

End DesignFacts.

Module DeterministicFacts.
Import Py PyMore PyData Project DesignModule RecalibrationFacts DesignFacts.

(** The fallback engine returns three keyed dicts. *)
Lemma deterministic_variants_keyed (project : ProjectInput) :
  exists v1 v2 v3,
    _deterministic_variants project = Ok (PList [PDict v1; PDict v2; PDict v3]) /\
    required ⊆ dom v1 /\ required ⊆ dom v2 /\ required ⊆ dom v3.
Proof.
  unfold _deterministic_variants.
  rewrite is_codes_foundation, is_codes_seismic, is_codes_concrete. cbn [bind].
  do 3 eexists. split; [reflexivity|].
  unfold required. rewrite !dom_list_to_map_L. cbn [fmap list_fmap fst].
  repeat split; apply (bool_decide_unpack _); vm_compute; exact I.
Qed.

End DeterministicFacts.

Section DesignClaims.
Import Py PyMore PyData Project DesignModule RecalibrationFacts DesignFacts.
Import DeterministicFacts.

Variable json_loads : string -> pyresult pyval.
Variable svc : GeminiClient.Service.
Variable float_str : float -> string.
Variable container_str : pyval -> string.
Variable set_str : gset string -> string.

(** X10.  [generate_variants] never raises, whatever the service does,
    and every item of what it returns is a dict that carries the six
    required keys (id, name, depth_m, piles, risk_score, cost_cr). *)
Theorem generate_variants_keyed (project : ProjectInput) :
  exists variants items,
    generate_variants json_loads svc float_str container_str set_str project =
      Ok variants /\
    py_iter variants = Ok items /\
    Forall keyed items.
Proof.
  unfold generate_variants.
  destruct (_gemini_variants json_loads svc float_str container_str set_str project)
    as [variants|e] eqn:E; cbn [try_except].
  - unfold _gemini_variants in E.
    rewrite is_codes_foundation, is_codes_seismic in E. cbn [bind] in E.
    destruct (GeminiClient.call_gemini_json _ _ _ _) as [reply|e]; [|discriminate E].
    cbn [bind] in E. destruct (py_iter reply) as [items|e] eqn:Hit; [|discriminate E].
    cbn [bind] in E.
    destruct (check_variants _ _ _ items) as [[]|e] eqn:Hck; [|discriminate E].
    injection E as <-. exists reply, items.
    split; [reflexivity|]. split; [exact Hit|].
    now apply (check_variants_keyed float_str container_str set_str).
  - destruct (deterministic_variants_keyed project) as (v1 & v2 & v3 & -> & H1 & H2 & H3).
    eexists _, _. split; [reflexivity|]. split; [reflexivity|].
    repeat constructor; eexists; split; try reflexivity; assumption.
Qed.

(** X11.  The check of [_gemini_variants] looks at the keys only: a JSON
    array whose items all carry the required keys is returned as it is,
    whatever its length, so the result may hold no variant at all. *)
Theorem generate_variants_accepts_any_length (project : ProjectInput)
    (reply : list pyval) :
  GeminiClient.call_gemini_json json_loads svc
    (variants_prompt float_str project "IS 1080, IS 6403" "IS 1893 (Part 1)") false
    = Ok (PList reply) ->
  Forall keyed reply ->
  generate_variants json_loads svc float_str container_str set_str project =
    Ok (PList reply).
Proof.
  intros Hcall Hall. unfold generate_variants, _gemini_variants.
  rewrite is_codes_foundation, is_codes_seismic. cbn [bind].
  rewrite Hcall. cbn [bind py_iter].
  apply (check_variants_keyed float_str container_str set_str) in Hall.
  now rewrite Hall.
Qed.

End DesignClaims.

Section DeterministicClaims.
Import Py PyMore PyData Project DesignModule RecalibrationFacts DesignFacts.

(** X12.  For every project the fallback engine returns exactly three
    variants, V1, V2, V3 in this order, with 0, 4 and 8 piles and risk
    scores 6.5, 3.8 and 1.5.  Their founding depths depend on the soil
    class and the seismic zone only; they lie between 2.0 m and 4.31 m and
    strictly increase from V1 to V3. *)
Theorem deterministic_variants_shape (project : ProjectInput) :
  exists v1 v2 v3 d1 d2 d3,
    _deterministic_variants project = Ok (PList [PDict v1; PDict v2; PDict v3]) /\
    (v1 !! "id" = Some (PStr "V1") /\ v2 !! "id" = Some (PStr "V2") /\
     v3 !! "id" = Some (PStr "V3")) /\
    (v1 !! "piles" = Some (PInt 0) /\ v2 !! "piles" = Some (PInt 4) /\
     v3 !! "piles" = Some (PInt 8)) /\
    (v1 !! "risk_score" = Some (PFloat 6.5) /\ v2 !! "risk_score" = Some (PFloat 3.8) /\
     v3 !! "risk_score" = Some (PFloat 1.5)) /\
    (v1 !! "depth_m" = Some (PFloat d1) /\ v2 !! "depth_m" = Some (PFloat d2) /\
     v3 !! "depth_m" = Some (PFloat d3)) /\
    (2 <=? d1)%float = true /\ (d1 <? d2)%float = true /\
    (d2 <? d3)%float = true /\ (d3 <=? 4.31)%float = true.
Proof.
  unfold _deterministic_variants.
  rewrite is_codes_foundation, is_codes_seismic, is_codes_concrete. cbn [bind].
  eexists _, _, _, (py_round (base_depth project) 2),
    (py_round (base_depth project + 0.4)%float 2),
    (py_round (base_depth project + 0.8)%float 2).
  split; [reflexivity|].
  split; [repeat split; vm_compute; reflexivity|].
  split; [repeat split; vm_compute; reflexivity|].
  split; [repeat split; vm_compute; reflexivity|].
  split; [repeat split; reflexivity|].
  unfold base_depth.
  destruct (soil_factor_cases project) as [-> | [-> | ->]];
    destruct (seismic_factor_cases project) as [-> | [-> | [-> | ->]]];
    repeat split; vm_compute; reflexivity.
Qed.

End DeterministicClaims.

(** An instance of X11: the service answers with an empty array, which
    passes the check and is returned. *)
Lemma generate_variants_accepts_any_length_witness :
  DesignModule.generate_variants Printers.json_loads_small Printers.service_empty_array
    Printers.float_str Printers.container_str Printers.set_str Examples.demo_project =
  Py.Ok (Py.PList []).
Proof.
  apply (generate_variants_accepts_any_length Printers.json_loads_small
           Printers.service_empty_array Printers.float_str Printers.container_str
           Printers.set_str Examples.demo_project []).
  - vm_compute. reflexivity.
  - constructor.
Defined.

Section ExplainClaims.
Import Py PyMore PyData Project DesignModule RecalibrationFacts DesignFacts.

Variable svc : GeminiClient.Service.
Variable float_str : float -> string.
Variable container_str : pyval -> string.
Variable list_lt : list pyval -> list pyval -> pyresult bool.

(** X13.  When the service fails, [explain_recommendation] answers from
    the variants themselves.  On the variants of the fallback engine it
    recommends V3, the variant of least risk score (not V2, whose name
    ends in "Recommended").  On variants that hold no item its own
    fallback fails: [min] raises [ValueError], which leaves the
    function. *)
Theorem explain_recommendation_fallback (project : ProjectInput) (e : exn) :
  (forall variants,
     GeminiClient.call_gemini svc
       (recommendation_prompt float_str variants project) false true = Raise e ->
     (forall v1 v2 v3,
        _deterministic_variants project = Ok (PList [PDict v1; PDict v2; PDict v3]) ->
        variants = PList [PDict v1; PDict v2; PDict v3] ->
        exists rest,
          explain_recommendation svc float_str container_str list_lt variants project =
            Ok (Some ("Recommended variant: V3 — Safety-Maximised Pile. Risk score: "
                      +:+ rest))) /\
     (py_iter variants = Ok [] ->
      exists msg,
        explain_recommendation svc float_str container_str list_lt variants project =
          Raise (Exn "ValueError" msg))).
Proof.
  intros variants Hfail. unfold explain_recommendation. rewrite Hfail.
  cbn [try_except]. split.
  - intros v1 v2 v3 Hdet ->.
    unfold _deterministic_variants in Hdet.
    rewrite is_codes_foundation, is_codes_seismic, is_codes_concrete in Hdet.
    cbn [bind] in Hdet. revert Hdet.
    repeat match goal with
           | |- context [py_round ?x ?n] =>
               let f := fresh "f" in generalize (py_round x n); intros f
           end.
    intros [= <- <- <-]. eexists. vm_compute. reflexivity.
  - intros Hiter. unfold py_min. rewrite Hiter. cbn [bind]. now eexists.
Qed.

End ExplainClaims.

(** An instance of X13: the service is down; the demo project's fallback
    variants get V3 recommended, and an empty list of variants makes the
    function raise. *)
Lemma explain_recommendation_fallback_witness :
  (exists variants rest,
     DesignModule._deterministic_variants Examples.demo_project = Py.Ok variants /\
     DesignModule.explain_recommendation Scripted.service_down Printers.float_str
       Printers.container_str Printers.list_lt variants Examples.demo_project =
       Py.Ok (Some ("Recommended variant: V3 — Safety-Maximised Pile. Risk score: "
                    +:+ rest))) /\
  exists msg,
    DesignModule.explain_recommendation Scripted.service_down Printers.float_str
      Printers.container_str Printers.list_lt (Py.PList []) Examples.demo_project =
      Py.Raise (Py.Exn "ValueError" msg).
Proof.
  split.
  - destruct (DeterministicFacts.deterministic_variants_keyed Examples.demo_project)
      as (v1 & v2 & v3 & Hdet & _).
    destruct (proj1 (explain_recommendation_fallback Scripted.service_down
                       Printers.float_str Printers.container_str Printers.list_lt
                       Examples.demo_project
                       (Py.Exn "ConnectionError" "service unreachable")
                       (Py.PList [Py.PDict v1; Py.PDict v2; Py.PDict v3]) eq_refl)
                v1 v2 v3 Hdet eq_refl) as [rest Hrest].
    exists (Py.PList [Py.PDict v1; Py.PDict v2; Py.PDict v3]), rest.
    split; [exact Hdet|exact Hrest].
  - apply (proj2 (explain_recommendation_fallback Scripted.service_down
                    Printers.float_str Printers.container_str Printers.list_lt
                    Examples.demo_project
                    (Py.Exn "ConnectionError" "service unreachable")
                    (Py.PList []) eq_refl)).
    reflexivity.
Defined.

(** ** The HTTP endpoints *)

Module ServerFacts.
Import Py PyMore PyData Project DesignModule RecalibrationFacts DesignFacts.

(** [validate] raises nothing but its own [ValueError]. *)
Lemma validate_raises_value_error (p : ProjectInput) (e : exn) :
  validate p = Raise e ->
  exn_class e = "ValueError" /\
  exists detail, exn_msg e = "ProjectInput validation failed: " +:+ detail.
Proof.
  unfold validate.
  destruct (truthy_list _); [|discriminate].
  intros [= <-]. split; [reflexivity|]. now eexists.
Qed.

Section WithServices.

Variable svc : GeminiClient.Service.
Variable float_str : float -> string.
Variable container_str : pyval -> string.
Variable list_lt : list pyval -> list pyval -> pyresult bool.

(** With the service failing, the variants of the fallback engine get V3
    recommended. *)
Lemma explain_fallback_deterministic (project : ProjectInput) (e : exn) variants :
  _deterministic_variants project = Ok variants ->
  GeminiClient.call_gemini svc (recommendation_prompt float_str variants project)
    false true = Raise e ->
  exists rest,
    explain_recommendation svc float_str container_str list_lt variants project =
      Ok (Some ("Recommended variant: V3 — Safety-Maximised Pile. Risk score: "
                +:+ rest)).
Proof.
  intros Hdet Hfail. unfold explain_recommendation. rewrite Hfail.
  cbn [try_except].
  unfold _deterministic_variants in Hdet.
  rewrite is_codes_foundation, is_codes_seismic, is_codes_concrete in Hdet.
  cbn [bind] in Hdet. revert Hdet.
  repeat match goal with
         | |- context [py_round ?x ?n] =>
             let f := fresh "f" in generalize (py_round x n); intros f
         end.
  intros [= <-]. eexists. vm_compute. reflexivity.
Qed.

End WithServices.

End ServerFacts.

Section SensorEndpointClaims.
Import Py PyMore PyData SensorEngine SensorFacts ReadingFacts Server.

Variable src : Np.RandomSource.

(** X14.  [POST /sensor/stream] ingests the request's readings only when
    there is at least one: it then never touches the random generator and
    echoes the last five raw values (all of them when fewer).  Without
    readings, and also with an empty list of readings, it reports on a
    simulated stream instead, and every such response says
    [deviation_detected] and lists five readings. *)
Theorem sensor_stream_dispatch (req : SensorRequest) :
  (forall v rest,
     readings req = Some (v :: rest) ->
     exists d,
       sensor_stream src req = Ok (PDict d) /\
       PDict d = stream_response (ingest_real_readings (v :: rest) (design_sbc req)) /\
       d !! "last_5_readings" = Some (PList (map PFloat (Spec.last_n 5 (v :: rest))))) /\
  (readings req = None \/ readings req = Some [] ->
   forall resp,
     sensor_stream src req = Ok resp ->
     exists d l,
       resp = PDict d /\
       d !! "deviation_detected" = Some (PBool true) /\
       d !! "last_5_readings" = Some (PList l) /\
       length l = 5%nat).
Proof.
  split.
  - intros v rest Hreq. unfold sensor_stream. rewrite Hreq. cbn [bind].
    eexists. split; [reflexivity|]. split; [reflexivity|].
    unfold stream_response.
    rewrite <- (map_map sbc_kNm2 PFloat), <- slice_from_map, ingest_stored_values.
    rewrite (slice_from_last_n 4). reflexivity.
  - intros Hnone resp. unfold sensor_stream.
    assert (Hsim : match readings req with
                   | Some (v :: rest) =>
                       Ok (ingest_real_readings (v :: rest) (design_sbc req))
                   | _ =>
                       simulate_stream src (design_sbc req)
                         Config.SENSOR_DEVIATION_START Config.SENSOR_TOTAL_READINGS None
                   end =
                   simulate_stream src (design_sbc req)
                     Config.SENSOR_DEVIATION_START Config.SENSOR_TOTAL_READINGS None)
      by (destruct Hnone as [-> | ->]; reflexivity).
    rewrite Hsim.
    destruct (simulate_stream src (design_sbc req) Config.SENSOR_DEVIATION_START
                Config.SENSOR_TOTAL_READINGS None) as [r|e] eqn:Hr; [|discriminate].
    cbn [bind]. intros [= <-].
    destruct (simulate_stream_Ok _ _ _ _ _ _ Hr) as (rng & _ & Hres).
    cbv zeta in Hres. destruct Hres as (Hread & Hdet & _).
    assert (Hd : deviation_detected r = true).
    { rewrite Hdet, loop_detected. rewrite range_reaches_start; [reflexivity|].
      unfold Config.SENSOR_DEVIATION_START, Config.SENSOR_TOTAL_READINGS. lia. }
    assert (Hlen : length (SensorEngine.readings r) = 20%nat).
    { rewrite Hread, loop_readings. reflexivity. }
    eexists _, _. split; [reflexivity|]. rewrite Hd.
    split; [reflexivity|]. split; [reflexivity|].
    rewrite length_map. unfold slice_from. rewrite length_drop, Hlen. reflexivity.
Qed.

End SensorEndpointClaims.

(** An instance of X14: two readings are ingested and echoed; six
    readings above the baseline are ingested, the last five echoed and a
    negative deviation reported without alert; an empty list is not
    ingested, the response comes from a simulated stream. *)
Lemma sensor_stream_dispatch_witness :
  (exists d,
     Server.sensor_stream (Scripted.source Scripted.script20)
       {| Server.design_sbc := 180; Server.readings := Some [150; 149]%float |} =
       Py.Ok (Py.PDict d) /\
     d !! "last_5_readings" = Some (Py.PList [Py.PFloat 150; Py.PFloat 149])) /\
  (exists d,
     Server.sensor_stream (Scripted.source Scripted.script20)
       {| Server.design_sbc := 180;
          Server.readings := Some [190; 195; 200; 205; 210; 215]%float |} =
       Py.Ok (Py.PDict d) /\
     d !! "last_5_readings" =
       Some (Py.PList (map Py.PFloat [195; 200; 205; 210; 215]%float)) /\
     d !! "deviation_percent" = Some (Py.PFloat (-13.89)) /\
     d !! "deviation_detected" = Some (Py.PBool false) /\
     d !! "alert_level" = Some (Py.PStr "NONE") /\
     d !! "trigger_recal" = Some (Py.PBool false)) /\
  exists d l,
    Server.sensor_stream (Scripted.source Scripted.script20)
      {| Server.design_sbc := 180; Server.readings := Some [] |} = Py.Ok (Py.PDict d) /\
    d !! "deviation_detected" = Some (Py.PBool true) /\
    d !! "last_5_readings" = Some (Py.PList l) /\ length l = 5%nat.
Proof.
  split; [|split].
  - destruct (proj1 (sensor_stream_dispatch (Scripted.source Scripted.script20)
                       {| Server.design_sbc := 180;
                          Server.readings := Some [150; 149]%float |})
                150%float [149%float] eq_refl) as (d & Hd & _ & Hl).
    exists d. split; [exact Hd|exact Hl].
  - destruct (proj1 (sensor_stream_dispatch (Scripted.source Scripted.script20)
                       {| Server.design_sbc := 180;
                          Server.readings :=
                            Some [190; 195; 200; 205; 210; 215]%float |})
                190%float [195; 200; 205; 210; 215]%float eq_refl)
      as (d & Hd & Hresp & Hl).
    exists d. split; [exact Hd|]. split; [exact Hl|].
    injection Hresp as ->. repeat split; vm_compute; reflexivity.
  - destruct (Server.sensor_stream (Scripted.source Scripted.script20)
                {| Server.design_sbc := 180; Server.readings := Some [] |})
      as [resp|e] eqn:E; [|vm_compute in E; discriminate E].
    destruct (proj2 (sensor_stream_dispatch (Scripted.source Scripted.script20)
                       {| Server.design_sbc := 180; Server.readings := Some [] |})
                (or_intror eq_refl) resp E) as (d & l & -> & H1 & H2 & H3).
    exists d, l. repeat split; assumption.
Defined.

Section DesignEndpointClaims.
Import Py PyMore PyData Project DesignModule RecalibrationFacts DesignFacts.
Import ServerFacts Server.

Variable json_loads : string -> pyresult pyval.
Variable svc : GeminiClient.Service.
Variable float_str : float -> string.
Variable container_str : pyval -> string.
Variable set_str : gset string -> string.
Variable list_lt : list pyval -> list pyval -> pyresult bool.

(** X15.  The three ways [POST /design/variants] ends.  A request that
    fails [validate] is answered with status 400 and the validation
    message, before any request to the service.  A valid request with the
    service failing on every call is answered from the fallback engine:
    its three variants, and a recommendation of V3.  A valid request for
    which the service returns an empty array of variants and then fails to
    explain is not answered at all: the [ValueError] of [min] leaves the
    endpoint. *)
Theorem design_endpoint_outcomes (req : ProjectRequest) :
  (forall e,
     validate (_to_project req) = Raise e ->
     exists detail,
       Server.generate_variants json_loads svc float_str container_str set_str
         list_lt req =
       Raise (http_exception 400 ("ProjectInput validation failed: " +:+ detail))) /\
  (forall b,
     validate (_to_project req) = Ok b ->
     (forall p json_mode fast,
        exists e, GeminiClient.call_gemini svc p json_mode fast = Raise e) ->
     exists d variants rest,
       Server.generate_variants json_loads svc float_str container_str set_str
         list_lt req = Ok (PDict d) /\
       _deterministic_variants (_to_project req) = Ok variants /\
       d !! "variants" = Some variants /\
       d !! "recommendation" =
         Some (PStr ("Recommended variant: V3 — Safety-Maximised Pile. Risk score: "
                     +:+ rest))) /\
  (forall b e,
     validate (_to_project req) = Ok b ->
     GeminiClient.call_gemini_json json_loads svc
       (variants_prompt float_str (_to_project req) "IS 1080, IS 6403"
          "IS 1893 (Part 1)") false = Ok (PList []) ->
     GeminiClient.call_gemini svc
       (recommendation_prompt float_str (PList []) (_to_project req)) false true =
       Raise e ->
     exists msg,
       Server.generate_variants json_loads svc float_str container_str set_str
         list_lt req = Raise (Exn "ValueError" msg)).
Proof.
  unfold Server.generate_variants. cbv zeta. split; [|split].
  - intros e Hval.
    destruct (validate_raises_value_error _ _ Hval) as (Hclass & detail & Hmsg).
    rewrite Hval. cbn [try_except]. rewrite Hclass, Hmsg. cbn [String.eqb bind].
    now exists detail.
  - intros b Hval Hdown. rewrite Hval. cbn [try_except bind].
    assert (Hgen : DesignModule.generate_variants json_loads svc float_str
                     container_str set_str (_to_project req) =
                   _deterministic_variants (_to_project req)).
    { unfold DesignModule.generate_variants, _gemini_variants.
      rewrite is_codes_foundation, is_codes_seismic. cbn [bind].
      unfold GeminiClient.call_gemini_json.
      destruct (Hdown (variants_prompt float_str (_to_project req)
                         "IS 1080, IS 6403" "IS 1893 (Part 1)") true false)
        as [e ->].
      reflexivity. }
    rewrite Hgen.
    destruct (DeterministicFacts.deterministic_variants_keyed (_to_project req))
      as (v1 & v2 & v3 & Hdet & _).
    rewrite Hdet. cbn [bind].
    destruct (Hdown (recommendation_prompt float_str
                       (PList [PDict v1; PDict v2; PDict v3]) (_to_project req))
                false true) as [e He].
    destruct (explain_fallback_deterministic svc float_str container_str list_lt
                _ e _ Hdet He) as [rest ->].
    cbn [bind of_option_str]. eexists _, _, rest.
    split; [reflexivity|]. split; [reflexivity|].
    split; reflexivity.
  - intros b e Hval Hcall Hfail. rewrite Hval. cbn [try_except bind].
    unfold DesignModule.generate_variants, _gemini_variants.
    rewrite is_codes_foundation, is_codes_seismic. cbn [bind].
    rewrite Hcall. cbn [bind py_iter check_variants try_except].
    unfold explain_recommendation. rewrite Hfail. cbn [try_except].
    unfold py_min. cbn [py_iter bind]. now eexists.
Qed.

End DesignEndpointClaims.

(** An instance of X15: a request with seismic zone VI gets the 400; the
    demo request with the service down gets the fallback variants and V3;
    the demo request with a service that returns an empty array and then
    fails gets a [ValueError]. *)
Lemma design_endpoint_outcomes_witness :
  (exists detail,
     Server.generate_variants Printers.json_loads_small Scripted.service_down
       Printers.float_str Printers.container_str Printers.set_str Printers.list_lt
       Requests.zone_six_request =
     Py.Raise (Server.http_exception 400
                 ("ProjectInput validation failed: " +:+ detail))) /\
  (exists d rest,
     Server.generate_variants Printers.json_loads_small Scripted.service_down
       Printers.float_str Printers.container_str Printers.set_str Printers.list_lt
       Requests.demo_request = Py.Ok (Py.PDict d) /\
     d !! "recommendation" =
       Some (Py.PStr ("Recommended variant: V3 — Safety-Maximised Pile. Risk score: "
                      +:+ rest))) /\
  exists msg,
    Server.generate_variants Printers.json_loads_small Requests.service_variants_only
      Printers.float_str Printers.container_str Printers.set_str Printers.list_lt
      Requests.demo_request = Py.Raise (Py.Exn "ValueError" msg).
Proof.
  split; [|split].
  - apply (proj1 (design_endpoint_outcomes Printers.json_loads_small
                    Scripted.service_down Printers.float_str Printers.container_str
                    Printers.set_str Printers.list_lt Requests.zone_six_request)
             (Py.Exn "ValueError"
                "ProjectInput validation failed: seismic_zone must be II/III/IV/V, got VI")).
    vm_compute. reflexivity.
  - destruct (proj1 (proj2 (design_endpoint_outcomes Printers.json_loads_small
                    Scripted.service_down Printers.float_str Printers.container_str
                    Printers.set_str Printers.list_lt Requests.demo_request))
                true eq_refl) as (d & variants & rest & H1 & _ & _ & H2).
    + intros p json_mode fast.
      exists (Py.Exn "ConnectionError" "service unreachable"). reflexivity.
    + exists d, rest. split; [exact H1|exact H2].
  - apply (proj2 (proj2 (design_endpoint_outcomes Printers.json_loads_small
                    Requests.service_variants_only Printers.float_str
                    Printers.container_str Printers.set_str Printers.list_lt
                    Requests.demo_request))
             true (Py.Exn "ConnectionError" "service unreachable")).
    + vm_compute. reflexivity.
    + vm_compute. reflexivity.
    + vm_compute. reflexivity.
Defined.

Section RecalibrateEndpointClaims.
Import Py PyMore PyData RecalibrationEngine FloatOrder RecalibrationFacts PolicyFacts.
Import Server.

Variable json_loads : string -> pyresult pyval.
Variable svc : GeminiClient.Service.

(** X16.  [POST /recalibrate] answers every request, whatever the service
    and the parser do: the response is a dict of exactly nine keys (the
    patch's rounded deviation and its IS code reference are not among
    them).  A deviation that is not a number is answered like a small
    one: severity MINOR, no piles, no approval required. *)
Theorem recalibrate_always_answers (deviation_percent budget_cr : float)
    (project_id : string) :
  exists d,
    recalibrate json_loads svc deviation_percent budget_cr project_id = Ok (PDict d) /\
    dom d =
      (list_to_set
         ["severity"; "structural_action"; "add_depth_mm"; "add_piles";
          "cost_delta_cr"; "new_risk_band"; "rationale"; "site_instructions";
          "requires_approval"] : gset string) /\
    (is_nan deviation_percent = true ->
     d !! "severity" = Some (PStr "MINOR") /\
     d !! "add_piles" = Some (PInt 0) /\
     d !! "requires_approval" = Some (PBool false)).
Proof.
  unfold recalibrate.
  destruct (generate_patch_returns json_loads svc deviation_percent "" None budget_cr)
    as (p & -> & _ & Hs & _ & _ & Hp & _ & _ & Hr).
  cbn [bind]. eexists. split; [reflexivity|]. split.
  - rewrite dom_list_to_map_L. reflexivity.
  - intros Hnan. rewrite Hs, Hp, Hr.
    destruct (base_action_cases deviation_percent)
      as [[H _]|[(_ & H & _)|(_ & _ & ->)]].
    + apply ltb_not_nan in H as [_ H]. congruence.
    + apply ltb_not_nan in H as [_ H]. congruence.
    + repeat split; vm_compute; reflexivity.
Qed.

End RecalibrateEndpointClaims.

(** An instance of X16: a deviation that is not a number, with the
    service down. *)
Lemma recalibrate_always_answers_witness :
  exists d,
    Server.recalibrate Scripted.json_loads_braces Scripted.service_down nan 10 "unknown" =
      Py.Ok (Py.PDict d) /\
    d !! "severity" = Some (Py.PStr "MINOR") /\
    d !! "requires_approval" = Some (Py.PBool false).
Proof.
  destruct (recalibrate_always_answers Scripted.json_loads_braces Scripted.service_down
              nan 10 "unknown") as (d & Hd & _ & Hnan).
  destruct (Hnan eq_refl) as (H1 & _ & H2).
  exists d. split; [exact Hd|]. split; [exact H1|exact H2].
Defined.
